(** * Read-only subscription API: a shallow embedding and its properties

  The development follows the two layers of the backend:

  - [BlockchainService] (blockchain.py): the chain reader, four read
    operations over a remote contract;
  - the Flask application (app.py): [validate_address],
    [format_timestamp], [format_duration] and the routes.

  Python strings are modelled as [string] (characters below 256), Python
  integers as [Z], exceptions as values of [pyexn], and the code that
  talks to the chain node as a state-and-error monad over an abstract
  node. *)

From Stdlib Require Import ZArith List Bool Lia.
From Stdlib Require Import Strings.String Strings.Ascii Numbers.DecimalString.
From Stdlib Require Numbers.DecimalPos.
Import ListNotations.

Set Warnings "-register-all".

Open Scope string_scope.
Open Scope Z_scope.

(** ** Python built-ins used by the code *)

Module Py.

(** [str(n)] for an [int]. *)
Definition str_of_int (n : Z) : string := NilZero.string_of_int (Z.to_int n).

(** [s.startswith(p)]. *)
Definition startswith (s p : string) : bool := String.prefix p s.

(** [len(s)]. *)
Definition len (s : string) : Z := Z.of_nat (String.length s).

(** [sep.join(parts)]. *)
Definition join (sep : string) (parts : list string) : string :=
  String.concat sep parts.

(** [c.lower()] on one character below 256: the letters A-Z and the
    capital letters of Latin-1 (all of 192..222 but the sign at 215) move
    up by 32. *)
Definition lower_ascii (c : ascii) : ascii :=
  let n := nat_of_ascii c in
  if (((65 <=? n)%nat && (n <=? 90)%nat)
      || ((192 <=? n)%nat && (n <=? 222)%nat && negb (n =? 215)%nat))%bool
  then ascii_of_nat (n + 32) else c.

(** [c.upper()] on a hex digit or any other ASCII character: only the
    letters a-z change. *)
Definition upper_ascii (c : ascii) : ascii :=
  let n := nat_of_ascii c in
  if ((97 <=? n)%nat && (n <=? 122)%nat)%bool then ascii_of_nat (n - 32) else c.

Fixpoint map_string (f : ascii -> ascii) (s : string) : string :=
  match s with
  | EmptyString => EmptyString
  | String c r => String (f c) (map_string f r)
  end.

(** [s.lower()]. *)
Definition lower (s : string) : string := map_string lower_ascii s.

Fixpoint string_forallb (p : ascii -> bool) (s : string) : bool :=
  match s with
  | EmptyString => true
  | String c r => (p c && string_forallb p r)%bool
  end.

Fixpoint zeros (n : nat) : string :=
  match n with
  | O => EmptyString
  | S k => String "0" (zeros k)
  end.

(** [s.zfill(width)] for the digits of a non-negative number, which is how
    [%02d] and the like print it: zeros in front up to [width] characters. *)
Definition zfill (width : nat) (s : string) : string :=
  zeros (width - String.length s) ++ s.

(** Exceptions.  [exn_value_error] says whether the object is an instance
    of [ValueError] (the class itself or a subclass), which is all the
    [except] clauses of the program look at; [exn_str] is [str(e)];
    [exn_cause] is the chained exception ([raise ... from e], or the
    implicit context of a [raise] inside an [except] block).  Only
    instances of [Exception] are values of this type: an interrupt or an
    exit of the interpreter is not an outcome of a request. *)
Inductive pyexn : Type :=
| PyExn (exn_class : string) (exn_value_error : bool) (exn_str : string)
        (exn_cause : option pyexn).

Definition exn_class (e : pyexn) : string :=
  match e with PyExn c _ _ _ => c end.
Definition is_ValueError (e : pyexn) : bool :=
  match e with PyExn _ b _ _ => b end.
Definition str (e : pyexn) : string :=
  match e with PyExn _ _ m _ => m end.
Definition cause (e : pyexn) : option pyexn :=
  match e with PyExn _ _ _ c => c end.

(** [ValueError(msg)], chained to [c]. *)
Definition ValueError (msg : string) (c : option pyexn) : pyexn :=
  PyExn "ValueError" true msg c.
(** [Exception(msg)], chained to [c]. *)
Definition Exception (msg : string) (c : option pyexn) : pyexn :=
  PyExn "Exception" false msg c.
(** [OverflowError(msg)]: an [ArithmeticError], not a [ValueError]. *)
Definition OverflowError (msg : string) : pyexn :=
  PyExn "OverflowError" false msg None.

(** [n / d] on two [int]s: the float nearest to the quotient, kept as the
    pair of operands; [ZeroDivisionError] for a zero divisor and
    [OverflowError] when the quotient rounds beyond the largest float. *)
Definition truediv (n d : Z) : pyexn + (Z * Z) :=
  if d =? 0 then inl (PyExn "ZeroDivisionError" false "division by zero" None)
  else if Z.abs d * (2 ^ 1024 - 2 ^ 970) <=? Z.abs n then
    inl (OverflowError "integer division result too large for a float")
  else inr (n, d).

End Py.

(** ** Keccak-256, as used by the checksum form of an address

  [Web3.to_checksum_address] hashes the lower-case hex digits with
  Keccak-256 (the original padding, not SHA-3's).  Lanes are 64-bit
  numbers; the state is the list of the 25 lanes, lane (x, y) at index
  x + 5 y. *)

Module Keccak.

Definition mask64 : Z := Z.ones 64.

Definition rotl64 (x : Z) (n : Z) : Z :=
  Z.land (Z.lor (Z.shiftl x n) (Z.shiftr x (64 - n))) mask64.

Definition not64 (x : Z) : Z := Z.lxor x mask64.

Definition lane (st : list Z) (x y : nat) : Z :=
  nth (x mod 5 + 5 * (y mod 5)) st 0.

Definition round_constants : list Z :=
  [ 0x0000000000000001; 0x0000000000008082; 0x800000000000808A;
    0x8000000080008000; 0x000000000000808B; 0x0000000080000001;
    0x8000000080008081; 0x8000000000008009; 0x000000000000008A;
    0x0000000000000088; 0x0000000080008009; 0x000000008000000A;
    0x000000008000808B; 0x800000000000008B; 0x8000000000008089;
    0x8000000000008003; 0x8000000000008002; 0x8000000000000080;
    0x000000000000800A; 0x800000008000000A; 0x8000000080008081;
    0x8000000000008080; 0x0000000080000001; 0x8000000080008008 ].

(** Rotation offsets, indexed like the state (x + 5 y). *)
Definition rotation_offsets : list Z :=
  [  0;  1; 62; 28; 27;
    36; 44;  6; 55; 20;
     3; 10; 43; 25; 39;
    41; 45; 15; 21;  8;
    18;  2; 61; 56; 14 ].

Definition coords : list (nat * nat) :=
  flat_map (fun y => map (fun x => (x, y)) (seq 0 5)) (seq 0 5).

Definition theta (st : list Z) : list Z :=
  let c := map (fun x =>
                  fold_left Z.lxor (map (fun y => lane st x y) (seq 0 5)) 0)
               (seq 0 5) in
  let d := map (fun x =>
                  Z.lxor (nth ((x + 4) mod 5) c 0)
                         (rotl64 (nth ((x + 1) mod 5) c 0) 1))
               (seq 0 5) in
  map (fun '(x, y) => Z.lxor (lane st x y) (nth x d 0)) coords.

(** rho and pi together: the lane written at (x, y) is the rotated lane
    read at (x + 3 y, x). *)
Definition rho_pi (st : list Z) : list Z :=
  map (fun '(x, y) =>
         let sx := ((x + 3 * y) mod 5)%nat in
         let sy := x in
         rotl64 (lane st sx sy) (nth (sx + 5 * sy) rotation_offsets 0))
      coords.

Definition chi (st : list Z) : list Z :=
  map (fun '(x, y) =>
         Z.lxor (lane st x y)
                (Z.land (not64 (lane st (x + 1) y)) (lane st (x + 2) y)))
      coords.

Definition iota (rc : Z) (st : list Z) : list Z :=
  match st with
  | [] => []
  | a :: r => Z.lxor a rc :: r
  end.

Definition round (st : list Z) (rc : Z) : list Z :=
  iota rc (chi (rho_pi (theta st))).

Definition keccak_f (st : list Z) : list Z :=
  fold_left round round_constants st.

(** Little-endian lane of eight bytes. *)
Definition lane_of_bytes (bs : list Z) : Z :=
  fold_right (fun b acc => b + 256 * acc) 0 bs.

Fixpoint bytes_of_lane (n : nat) (l : Z) : list Z :=
  match n with
  | O => []
  | S k => Z.land l 255 :: bytes_of_lane k (Z.shiftr l 8)
  end.

Fixpoint chunks (fuel size : nat) (bs : list Z) : list (list Z) :=
  match fuel with
  | O => []
  | S f =>
      match bs with
      | [] => []
      | _ => firstn size bs :: chunks f size (skipn size bs)
      end
  end.

Definition rate : nat := 136.

(** Padding 0x01 0x00 ... 0x80 up to a multiple of the rate. *)
Definition pad (msg : list Z) : list Z :=
  let q := (rate - (List.length msg mod rate))%nat in
  if (q =? 1)%nat then msg ++ [0x81]
  else msg ++ [0x01] ++ repeat 0 (q - 2) ++ [0x80].

Fixpoint xor_lanes (st blk : list Z) : list Z :=
  match st, blk with
  | s :: st', b :: blk' => Z.lxor s b :: xor_lanes st' blk'
  | _, _ => st
  end.

Definition absorb (st : list Z) (block : list Z) : list Z :=
  keccak_f (xor_lanes st (map lane_of_bytes (chunks 17 8 block))).

Definition keccak256 (msg : list Z) : list Z :=
  let blocks := chunks (S (List.length msg)) rate (pad msg) in
  let st := fold_left absorb blocks (repeat 0 25%nat) in
  firstn 32 (flat_map (bytes_of_lane 8) st).

Definition hex_digit (n : Z) : ascii :=
  nth (Z.to_nat n) (list_ascii_of_string "0123456789abcdef") "0"%char.

Definition hex_of_bytes (bs : list Z) : string :=
  string_of_list_ascii
    (flat_map (fun b => [hex_digit (Z.shiftr b 4); hex_digit (Z.land b 15)]) bs).

Definition bytes_of_text (s : string) : list Z :=
  map (fun c => Z.of_nat (nat_of_ascii c)) (list_ascii_of_string s).

(** [encode_hex(keccak(text=s))] without the 0x prefix. *)
Definition keccak256_hex (s : string) : string :=
  hex_of_bytes (keccak256 (bytes_of_text s)).

End Keccak.

(** ** eth_utils: hex strings and the checksum form of an address *)

Module EthUtils.

Definition is_hex_char (c : ascii) : bool :=
  let n := nat_of_ascii c in
  (((48 <=? n)%nat && (n <=? 57)%nat)
   || ((97 <=? n)%nat && (n <=? 102)%nat)
   || ((65 <=? n)%nat && (n <=? 70)%nat))%bool.

(** [is_0x_prefixed]: the string starts with 0x or 0X. *)
Definition is_0x_prefixed (s : string) : bool :=
  (Py.startswith s "0x" || Py.startswith s "0X")%bool.

Definition remove_0x_prefix (s : string) : string :=
  if is_0x_prefixed s then String.substring 2 (String.length s - 2) s else s.

Definition add_0x_prefix (s : string) : string :=
  if is_0x_prefixed s then s else "0x" ++ s.

(** [is_hexstr]: an optional prefix followed by hex digits only. *)
Definition is_hexstr (s : string) : bool :=
  Py.string_forallb is_hex_char (remove_0x_prefix s).

(** [is_hex_address]: a hex string with 40 digits after the prefix. *)
Definition is_hex_address (s : string) : bool :=
  (is_hexstr s && (String.length (remove_0x_prefix s) =? 40)%nat)%bool.

(** [repr(s)] for a text without quotes or characters to escape; it only
    appears in the messages of the errors below. *)
Definition quoted (s : string) : string := "'" ++ s ++ "'".

(** [to_normalized_address]: the lower-case, prefixed hex address, or a
    [ValueError] when the text is not a hex string or not an address. *)
Definition to_normalized_address (value : string) : Py.pyexn + string :=
  if (negb (String.eqb (remove_0x_prefix value) "") && negb (is_hexstr value))%bool
  then inl (Py.ValueError
              ("when sending a str, it must be a hex string. Got: " ++ quoted value)
              None)
  else
    let hex_address := Py.lower (add_0x_prefix (Py.lower value)) in
    if is_hex_address hex_address then inr hex_address
    else inl (Py.ValueError
                ("Unknown format " ++ quoted value
                 ++ ", attempted to normalize to " ++ quoted hex_address)
                None).

(** [int(c, 16)] for one hex digit. *)
Definition hex_value (c : ascii) : Z :=
  let n := Z.of_nat (nat_of_ascii c) in
  if (48 <=? n) && (n <=? 57) then n - 48
  else if (97 <=? n) && (n <=? 102) then n - 87
  else if (65 <=? n) && (n <=? 70) then n - 55
  else 0.

(** The digits of the address, each in upper case where the digit of the
    hash at the same place is above 7. *)
Fixpoint checksum_digits (addr hash : string) : string :=
  match addr, hash with
  | String a addr', String h hash' =>
      String (if 7 <? hex_value h then Py.upper_ascii a else a)
             (checksum_digits addr' hash')
  | _, _ => EmptyString
  end.

Definition to_checksum_address (value : string) : Py.pyexn + string :=
  match to_normalized_address value with
  | inl e => inl e
  | inr norm_address =>
      let digits := remove_0x_prefix norm_address in
      let address_hash := Keccak.keccak256_hex digits in
      inr ("0x" ++ checksum_digits digits address_hash)
  end.

(** [from_wei(number, 'ether')]: the integer 0 for 0, the exact decimal
    number / 10^18 for a number up to 2^256 - 1, a [ValueError] otherwise.
    The result is [inr None] for the integer 0 and [inr (Some wei)] for the
    decimal. *)
Definition from_wei_ether (number : Z) : Py.pyexn + option Z :=
  if number =? 0 then inr None
  else if (number <? 0) || (2 ^ 256 - 1 <? number) then
    inl (Py.ValueError "value must be between 1 and 2**256 - 1" None)
  else inr (Some number).

End EthUtils.

(** ** datetime: local calendar time of a Unix timestamp

    [datetime.fromtimestamp(t)] without a time zone gives the calendar
    time of the host's local zone.  The zone is a function from the
    timestamp to the offset from UTC in seconds. *)

Module Datetime.

Record datetime : Type := mk_datetime {
  year : Z; month : Z; day : Z; hour : Z; minute : Z; second : Z
}.

(** Proleptic Gregorian date of a day number counted from 1970-01-01. *)
Definition civil_from_days (days : Z) : Z * Z * Z :=
  let z := days + 719468 in
  let era := z / 146097 in
  let doe := z - era * 146097 in
  let yoe := (doe - doe / 1460 + doe / 36524 - doe / 146096) / 365 in
  let doy := doe - (365 * yoe + yoe / 4 - yoe / 100) in
  let mp := (5 * doy + 2) / 153 in
  let d := doy - (153 * mp + 2) / 5 + 1 in
  let m := if mp <? 10 then mp + 3 else mp - 9 in
  let y := yoe + era * 400 in
  ((if m <=? 2 then y + 1 else y), m, d).

Definition of_seconds (secs : Z) : datetime :=
  let '(y, m, d) := civil_from_days (secs / 86400) in
  let r := secs mod 86400 in
  mk_datetime y m d (r / 3600) (r mod 3600 / 60) (r mod 60).

(** A C [int]: a value that leaves 32 bits wraps around. *)
Definition c_int (n : Z) : Z := (n + 2 ^ 31) mod 2 ^ 32 - 2 ^ 31.

(** The platform's [localtime_r]: the broken-down local time of [t], or
    an [OSError] when the year does not fit the field [tm_year], which is
    a C [int] counted from 1900. *)
Definition localtime (utcoffset : Z -> Z) (t : Z) : Py.pyexn + datetime :=
  let dt := of_seconds (t + utcoffset t) in
  if (year dt - 1900 <? - 2 ^ 31) || (2 ^ 31 <=? year dt - 1900) then
    inl (Py.PyExn "OSError" false
           "[Errno 75] Value too large for defined data type" None)
  else inr dt.

(** The test of the year that the interpreter makes on a broken-down
    time: the year is [tm_year + 1900] computed as a C [int], and it must
    be between 1 and 9999. *)
Definition check_year (tm : datetime) : option Py.pyexn :=
  let y := c_int (year tm) in
  if (y <? 1) || (9999 <? y) then
    Some (Py.ValueError ("year " ++ Py.str_of_int y ++ " is out of range") None)
  else None.

(** The local count of seconds at the time [t], as the interpreter
    computes it to detect a repeated hour: the time must fit the
    platform's 64-bit time and pass [localtime] and [check_year]; the
    count of the broken-down time is then [t] plus the offset. *)
Definition local (utcoffset : Z -> Z) (t : Z) : Py.pyexn + Z :=
  if (t <? - 2 ^ 63) || (2 ^ 63 <=? t) then
    inl (Py.OverflowError "timestamp out of range for platform time_t")
  else
    match localtime utcoffset t with
    | inl e => inl e
    | inr tm =>
        match check_year tm with
        | Some e => inl e
        | None => inr (t + utcoffset t)
        end
    end.

(** The longest repeated interval the interpreter looks for: one day. *)
Definition max_fold_seconds : Z := 24 * 3600.

(** [datetime.fromtimestamp(t)] on a host whose zone is [utcoffset]: the
    timestamp must fit the platform's 64-bit time; the local time is
    taken and its year tested; then the local time one day earlier is
    taken and tested in the same way, and, when the offset has gone down
    since, the local time at the start of the repeated interval. *)
Definition fromtimestamp (utcoffset : Z -> Z) (t : Z) : Py.pyexn + datetime :=
  if (t <? - 2 ^ 63) || (2 ^ 63 <=? t) then
    inl (Py.OverflowError "timestamp out of range for platform time_t")
  else
    match localtime utcoffset t with
    | inl e => inl e
    | inr tm =>
        match check_year tm with
        | Some e => inl e
        | None =>
            let result_seconds := t + utcoffset t in
            match local utcoffset (t - max_fold_seconds) with
            | inl e => inl e
            | inr probe_seconds =>
                let transition :=
                  result_seconds - probe_seconds - max_fold_seconds in
                if transition <? 0 then
                  match local utcoffset (t + transition) with
                  | inl e => inl e
                  | inr _ => inr tm
                  end
                else inr tm
            end
        end
    end.

Definition digits (width : nat) (n : Z) : string :=
  Py.zfill width (Py.str_of_int n).

(** [dt.strftime('%Y-%m-%d %H:%M:%S UTC')] with the C library of Linux,
    which prints the year as it is, without zeros in front, and the other
    fields with two digits. *)
Definition strftime_ymd_hms_utc (dt : datetime) : string :=
  Py.str_of_int (year dt) ++ "-" ++ digits 2 (month dt) ++ "-"
  ++ digits 2 (day dt)
  ++ " " ++ digits 2 (hour dt) ++ ":" ++ digits 2 (minute dt) ++ ":"
  ++ digits 2 (second dt) ++ " UTC".

End Datetime.

(** ** JSON values and responses *)

Inductive json : Type :=
| JNull
| JBool (b : bool)
| JInt (n : Z)
| JStr (s : string)
| JDecimalWei (wei : Z)        (* the decimal number wei / 10^18 *)
| JFloatDiv (n d : Z)          (* the float nearest to n / d *)
| JList (items : list json).

(** A Python dict handed to [jsonify], in insertion order. *)
Definition pydict : Type := list (string * json).

Fixpoint dict_get (d : pydict) (k : string) : option json :=
  match d with
  | [] => None
  | (k', v) :: r => if String.eqb k' k then Some v else dict_get r k
  end.

Definition dict_remove (d : pydict) (k : string) : pydict :=
  filter (fun kv => negb (String.eqb (fst kv) k)) d.

(** A response: the JSON body and the HTTP status code. *)
Definition response : Type := pydict * Z.

Definition body (r : response) : pydict := fst r.
Definition status (r : response) : Z := snd r.

Definition json_of_option (o : option string) : json :=
  match o with
  | Some s => JStr s
  | None => JNull
  end.

(** ** The chain node and the effects of a request

    The node is outside the program: each read of the contract is a call
    that takes the state of the outside world (node, network) to a result
    or an exception and a new state.  What a request does is recorded as a
    trace of events. *)

Record Node (W : Type) : Type := mk_Node {
  isActive : string -> W -> (Py.pyexn + bool) * W;
  getExpiry : string -> W -> (Py.pyexn + Z) * W;
  getRemainingTime : string -> W -> (Py.pyexn + Z) * W;
  SUBSCRIPTION_PRICE : W -> (Py.pyexn + Z) * W;
  SUBSCRIPTION_DURATION : W -> (Py.pyexn + Z) * W;
  totalSubscribers : W -> (Py.pyexn + Z) * W;
  totalRevenue : W -> (Py.pyexn + Z) * W;
  getBalance : W -> (Py.pyexn + Z) * W
}.

Arguments isActive {W}.
Arguments getExpiry {W}.
Arguments getRemainingTime {W}.
Arguments SUBSCRIPTION_PRICE {W}.
Arguments SUBSCRIPTION_DURATION {W}.
Arguments totalSubscribers {W}.
Arguments totalRevenue {W}.
Arguments getBalance {W}.

Inductive event : Type :=
| ReaderOp (op : string) (arg : option string)
    (* a method of BlockchainService was entered *)
| RemoteCall (fn : string) (arg : option string) (ok : bool)
    (* contract.functions.fn(arg).call() was issued; [ok] is false when it raised *)
| Printed (text : string) (e : Py.pyexn).
    (* print of a message with the traceback of [e] *)

Definition is_remote (ev : event) : bool :=
  match ev with
  | RemoteCall _ _ _ => true
  | _ => false
  end.

Definition is_reader_op (ev : event) : bool :=
  match ev with
  | ReaderOp _ _ => true
  | _ => false
  end.

Definition failed_remote (ev : event) : bool :=
  match ev with
  | RemoteCall _ _ ok => negb ok
  | _ => false
  end.

Module Eff.

Section Monad.
Context {W : Type}.

(** The state threaded through a request: the outside world and the trace
    so far, oldest event first. *)
Definition state : Type := W * list event.

Definition M (A : Type) : Type := state -> (Py.pyexn + A) * state.

Definition ret {A} (a : A) : M A := fun s => (inr a, s).

Definition raise {A} (e : Py.pyexn) : M A := fun s => (inl e, s).

Definition bind {A B} (m : M A) (k : A -> M B) : M B :=
  fun s =>
    match m s with
    | (inl e, s') => (inl e, s')
    | (inr a, s') => k a s'
    end.

(** A pure computation that returns or raises. *)
Definition lift {A} (r : Py.pyexn + A) : M A := fun s => (r, s).

Definition emit (ev : event) : M unit :=
  fun s => (inr tt, (fst s, (snd s ++ [ev])%list)).

Definition is_ok {A} (r : Py.pyexn + A) : bool :=
  match r with
  | inl _ => false
  | inr _ => true
  end.

(** [contract.functions.fn(arg).call()]. *)
Definition remote_call {A} (fn : string) (arg : option string)
    (f : W -> (Py.pyexn + A) * W) : M A :=
  fun s =>
    let r := f (fst s) in
    (fst r, (snd r, (snd s ++ [RemoteCall fn arg (is_ok (fst r))])%list)).

(** [try: m  except C as e: h e], where [catches] decides [isinstance(e, C)]. *)
Definition try_except {A} (m : M A) (catches : Py.pyexn -> bool)
    (h : Py.pyexn -> M A) : M A :=
  fun s =>
    match m s with
    | (inl e, s') => if catches e then h e s' else (inl e, s')
    | (inr a, s') => (inr a, s')
    end.

(** [try: m  except ValueError as e: h1 e  except Exception as e: h2 e]. *)
Definition try_except_ValueError_Exception {A} (m : M A)
    (h1 h2 : Py.pyexn -> M A) : M A :=
  fun s =>
    match m s with
    | (inl e, s') => if Py.is_ValueError e then h1 e s' else h2 e s'
    | (inr a, s') => (inr a, s')
    end.

End Monad.

End Eff.

Notation "x <- m ;; k" := (Eff.bind m (fun x => k))
  (at level 61, m at next level, right associativity).
Notation "m ;;; k" := (Eff.bind m (fun _ => k))
  (at level 61, right associativity).

(** ** blockchain.py: the chain reader *)

Module BlockchainService.

Section Reader.
Context {W : Type} (node : Node W).
(** [self.contract_address], set once by [__init__]. *)
Context (contract_address : string).

Definition is_subscription_active (wallet_address : string) : Eff.M bool :=
  Eff.emit (ReaderOp "is_subscription_active" (Some wallet_address)) ;;;
  Eff.try_except
    (checksum_address <- Eff.lift (EthUtils.to_checksum_address wallet_address) ;;
     is_active <- Eff.remote_call "isActive" (Some checksum_address)
                    (isActive node checksum_address) ;;
     Eff.ret is_active)
    Py.is_ValueError
    (fun e => Eff.raise
                (Py.ValueError ("Invalid wallet address: " ++ wallet_address)
                               (Some e))).

Definition get_subscription_expiry (wallet_address : string) : Eff.M Z :=
  Eff.emit (ReaderOp "get_subscription_expiry" (Some wallet_address)) ;;;
  Eff.try_except
    (checksum_address <- Eff.lift (EthUtils.to_checksum_address wallet_address) ;;
     expiry <- Eff.remote_call "getExpiry" (Some checksum_address)
                 (getExpiry node checksum_address) ;;
     Eff.ret expiry)
    Py.is_ValueError
    (fun e => Eff.raise
                (Py.ValueError ("Invalid wallet address: " ++ wallet_address)
                               (Some e))).

Definition get_remaining_time (wallet_address : string) : Eff.M Z :=
  Eff.emit (ReaderOp "get_remaining_time" (Some wallet_address)) ;;;
  Eff.try_except
    (checksum_address <- Eff.lift (EthUtils.to_checksum_address wallet_address) ;;
     remaining <- Eff.remote_call "getRemainingTime" (Some checksum_address)
                    (getRemainingTime node checksum_address) ;;
     Eff.ret remaining)
    Py.is_ValueError
    (fun e => Eff.raise
                (Py.ValueError ("Invalid wallet address: " ++ wallet_address)
                               (Some e))).

Definition json_of_eth (v : option Z) : json :=
  match v with
  | None => JInt 0
  | Some wei => JDecimalWei wei
  end.

(** [self.w3.from_wei(self.contract.functions.fn().call(), 'ether')]. *)
Definition read_eth (fn : string) (f : W -> (Py.pyexn + Z) * W) : Eff.M json :=
  wei <- Eff.remote_call fn None f ;;
  eth <- Eff.lift (EthUtils.from_wei_ether wei) ;;
  Eff.ret (json_of_eth eth).

Definition get_contract_stats : Eff.M pydict :=
  Eff.emit (ReaderOp "get_contract_stats" None) ;;;
  Eff.try_except
    (price_wei <- Eff.remote_call "SUBSCRIPTION_PRICE" None
                    (SUBSCRIPTION_PRICE node) ;;
     price_eth <- read_eth "SUBSCRIPTION_PRICE" (SUBSCRIPTION_PRICE node) ;;
     duration_seconds <- Eff.remote_call "SUBSCRIPTION_DURATION" None
                           (SUBSCRIPTION_DURATION node) ;;
     duration <- Eff.remote_call "SUBSCRIPTION_DURATION" None
                   (SUBSCRIPTION_DURATION node) ;;
     duration_days <- Eff.lift (Py.truediv duration 86400) ;;
     subscribers <- Eff.remote_call "totalSubscribers" None
                      (totalSubscribers node) ;;
     revenue_wei <- Eff.remote_call "totalRevenue" None (totalRevenue node) ;;
     revenue_eth <- read_eth "totalRevenue" (totalRevenue node) ;;
     balance_wei <- Eff.remote_call "getBalance" None (getBalance node) ;;
     balance_eth <- read_eth "getBalance" (getBalance node) ;;
     Eff.ret
       [ ("subscription_price_wei", JInt price_wei);
         ("subscription_price_eth", price_eth);
         ("subscription_duration_seconds", JInt duration_seconds);
         ("subscription_duration_days",
           JFloatDiv (fst duration_days) (snd duration_days));
         ("total_subscribers", JInt subscribers);
         ("total_revenue_wei", JInt revenue_wei);
         ("total_revenue_eth", revenue_eth);
         ("contract_balance_wei", JInt balance_wei);
         ("contract_balance_eth", balance_eth);
         ("contract_address", JStr contract_address) ])
    (fun _ => true)
    (fun e => Eff.raise
                (Py.Exception ("Error fetching contract stats: " ++ Py.str e)
                              (Some e))).

End Reader.

End BlockchainService.

(** ** app.py: helpers and routes *)

Module App.

(** app.py, [validate_address]. *)
Definition validate_address (address : string) : bool * option string :=
  if String.eqb address "" then (false, Some "Address is required")
  else if negb (Py.startswith address "0x") then
    (false, Some "Address must start with 0x")
  else if negb (Py.len address =? 42) then
    (false, Some "Address must be 42 characters long")
  else (true, None).

(** app.py, [format_timestamp], on a host whose local zone is [utcoffset]. *)
Definition format_timestamp (utcoffset : Z -> Z) (timestamp : Z)
  : Py.pyexn + string :=
  if timestamp =? 0 then inr "Never subscribed"
  else
    match Datetime.fromtimestamp utcoffset timestamp with
    | inl e => inl e
    | inr dt => inr (Datetime.strftime_ymd_hms_utc dt)
    end.

(** The f-string [f"{n} {unit}{'s' if n != 1 else ''}"]. *)
Definition unit_text (n : Z) (unit : string) : string :=
  Py.str_of_int n ++ " " ++ unit ++ (if negb (n =? 1) then "s" else "").

(** app.py, [format_duration].  [//] and [%] are Python's floor division
    and modulo, which for a positive divisor are [Z.div] and [Z.modulo]. *)
Definition format_duration (seconds : Z) : string :=
  if seconds =? 0 then "Expired"
  else
    let days := seconds / 86400 in
    let hours := (seconds mod 86400) / 3600 in
    let minutes := (seconds mod 3600) / 60 in
    let parts : list string := [] in
    let parts := if 0 <? days then (parts ++ [unit_text days "day"])%list else parts in
    let parts := if 0 <? hours then (parts ++ [unit_text hours "hour"])%list else parts in
    let parts :=
      if 0 <? minutes then (parts ++ [unit_text minutes "minute"])%list else parts in
    match parts with
    | [] => "Less than a minute"
    | _ => Py.join ", " parts
    end.


Definition internal_server_error : response :=
  ([("error", JStr "Internal server error")], 500).

Section Routes.
Context {W : Type} (node : Node W).
Context (contract_address : string).
(** The local time zone of the host, for [format_timestamp]. *)
Context (utcoffset : Z -> Z).

Definition health_check : Eff.M (W := W) response :=
  Eff.ret
    ([ ("status", JStr "healthy");
       ("service", JStr "Decentralized Subscription API");
       ("blockchain", JStr "Sepolia Testnet");
       ("contract_address", JStr contract_address) ], 200).

Definition get_subscription_status (wallet_address : string) : Eff.M response :=
  Eff.try_except_ValueError_Exception
    (let '(is_valid, error_msg) := validate_address wallet_address in
     if negb is_valid then
       Eff.ret ([("error", json_of_option error_msg)], 400)
     else
       is_active <- BlockchainService.is_subscription_active node wallet_address ;;
       expiry_timestamp <-
         BlockchainService.get_subscription_expiry node wallet_address ;;
       remaining_seconds <-
         BlockchainService.get_remaining_time node wallet_address ;;
       expiry_date <- Eff.lift (format_timestamp utcoffset expiry_timestamp) ;;
       Eff.ret
         ([ ("wallet_address", JStr wallet_address);
            ("is_active", JBool is_active);
            ("expiry_timestamp", JInt expiry_timestamp);
            ("expiry_date", JStr expiry_date);
            ("remaining_seconds", JInt remaining_seconds);
            ("remaining_time", JStr (format_duration remaining_seconds)) ], 200))
    (fun e => Eff.ret ([("error", JStr (Py.str e))], 400))
    (fun e =>
       Eff.emit (Printed "ERROR in get_subscription_status: " e) ;;;
       Eff.ret internal_server_error).

Definition get_subscription_expiry (wallet_address : string) : Eff.M response :=
  Eff.try_except_ValueError_Exception
    (let '(is_valid, error_msg) := validate_address wallet_address in
     if negb is_valid then
       Eff.ret ([("error", json_of_option error_msg)], 400)
     else
       expiry_timestamp <-
         BlockchainService.get_subscription_expiry node wallet_address ;;
       expiry_date <- Eff.lift (format_timestamp utcoffset expiry_timestamp) ;;
       Eff.ret
         ([ ("wallet_address", JStr wallet_address);
            ("expiry_timestamp", JInt expiry_timestamp);
            ("expiry_date", JStr expiry_date) ], 200))
    (fun e => Eff.ret ([("error", JStr (Py.str e))], 400))
    (fun e =>
       Eff.emit (Printed "ERROR in get_subscription_expiry: " e) ;;;
       Eff.ret internal_server_error).

Definition get_remaining_time (wallet_address : string) : Eff.M response :=
  Eff.try_except_ValueError_Exception
    (let '(is_valid, error_msg) := validate_address wallet_address in
     if negb is_valid then
       Eff.ret ([("error", json_of_option error_msg)], 400)
     else
       remaining_seconds <-
         BlockchainService.get_remaining_time node wallet_address ;;
       Eff.ret
         ([ ("wallet_address", JStr wallet_address);
            ("remaining_seconds", JInt remaining_seconds);
            ("remaining_time", JStr (format_duration remaining_seconds)) ], 200))
    (fun e => Eff.ret ([("error", JStr (Py.str e))], 400))
    (fun e =>
       Eff.emit (Printed "ERROR in get_remaining_time: " e) ;;;
       Eff.ret internal_server_error).

Definition get_contract_stats : Eff.M response :=
  Eff.try_except
    (stats <- BlockchainService.get_contract_stats node contract_address ;;
     Eff.ret (stats, 200))
    (fun _ => true)
    (fun e =>
       Eff.emit (Printed "ERROR in get_contract_stats: " e) ;;;
       Eff.ret internal_server_error).

End Routes.

(** The handler of 404: the body lists the routes. *)
Definition not_found : response :=
  ([ ("error", JStr "Endpoint not found");
     ("available_endpoints",
       JList [ JStr "GET /health";
               JStr "GET /status/<wallet_address>";
               JStr "GET /expiry/<wallet_address>";
               JStr "GET /remaining/<wallet_address>";
               JStr "GET /stats" ]) ], 404).

(** The handler of 500, which Flask runs when a view raises. *)
Definition internal_error (e : Py.pyexn) : response := internal_server_error.

(** One request: the response of the view, and the state it leaves.  When
    a view raises, the response is that of the handler of 500, as Flask
    gives it outside its debug mode; what a view itself returns is stated
    on the view. *)
Definition serve {W : Type} (view : Eff.M (W := W) response)
    (s : Eff.state (W := W)) : response * Eff.state (W := W) :=
  match view s with
  | (inr r, s') => (r, s')
  | (inl e, s') => (internal_error e, s')
  end.

End App.

(** ** Definitions used to state the properties *)

(** The events a request adds to an empty trace. *)
Definition events_of {W A : Type} (r : A * Eff.state (W := W)) : list event :=
  snd (snd r).

Definition world_of {W A : Type} (r : A * Eff.state (W := W)) : W :=
  fst (snd r).

(** The three messages of the syntactic check. *)
Definition syntactic_messages : list string :=
  [ "Address is required";
    "Address must start with 0x";
    "Address must be 42 characters long" ].

(** A 42-character text with the 0x prefix. *)
Definition address_shaped (a : string) : Prop :=
  Py.startswith a "0x" = true /\ Py.len a = 42.

(** One of the 40 characters after the prefix is not a hex digit. *)
Definition has_non_hex_digit (a : string) : bool :=
  negb (Py.string_forallb EthUtils.is_hex_char (String.substring 2 40 a)).

(** Two spellings of one text that differ in letter case only. *)
Definition same_up_to_case (a b : string) : Prop := Py.lower a = Py.lower b.

(** Two outcomes of a request that agree but for the echo of the address:
    the same status code, the same world afterwards, the same remote
    calls in the same order, the same body of a 200 apart from the field
    wallet_address, and the same body of a 500. *)
Definition agree_up_to_echo {W : Type}
    (ra rb : response * Eff.state (W := W)) : Prop :=
  status (fst ra) = status (fst rb)
  /\ world_of ra = world_of rb
  /\ filter is_remote (events_of ra) = filter is_remote (events_of rb)
  /\ (status (fst ra) = 200 ->
      dict_remove (body (fst ra)) "wallet_address"
      = dict_remove (body (fst rb)) "wallet_address")
  /\ (status (fst ra) = 500 -> body (fst ra) = body (fst rb)).

(** A response that, when it is a success, echoes the text [a]. *)
Definition echoes_address (a : string) (r : response) : Prop :=
  status r = 200 -> dict_get (body r) "wallet_address" = Some (JStr a).

(** The two error kinds of the chain reader: a [ValueError] with the
    message of an invalid address, and the generic exception that wraps a
    failed read of the statistics. *)
Definition is_InvalidAddress (wallet_address : string) (e : Py.pyexn) : bool :=
  (String.eqb (Py.exn_class e) "ValueError"
   && String.eqb (Py.str e) ("Invalid wallet address: " ++ wallet_address))%bool.

Definition is_RemoteCallFailure (e : Py.pyexn) : bool :=
  match Py.cause e with
  | Some c =>
      (String.eqb (Py.exn_class e) "Exception"
       && String.eqb (Py.str e) ("Error fetching contract stats: " ++ Py.str c))%bool
  | None => false
  end.

(** What a per-wallet operation of the reader may end in: a value, the
    error of an invalid address, or an exception of the remote call that
    is not a [ValueError], unchanged. *)
Definition wallet_outcome {W A : Type}
    (call : string -> W -> (Py.pyexn + A) * W) (wallet_address : string)
    (w : W) (r : Py.pyexn + A) : Prop :=
  match r with
  | inr _ => True
  | inl e =>
      is_InvalidAddress wallet_address e = true
      \/ (Py.is_ValueError e = false
          /\ exists c, EthUtils.to_checksum_address wallet_address = inr c
                       /\ fst (call c w) = inl e)
  end.

(** What [get_contract_stats] may end in: a value or the wrapping
    exception. *)
Definition stats_outcome {A : Type} (r : Py.pyexn + A) : Prop :=
  match r with
  | inr _ => True
  | inl e => is_RemoteCallFailure e = true
  end.

Fixpoint has_space (s : string) : bool :=
  match s with
  | EmptyString => false
  | String c r => (Ascii.eqb c " " || has_space r)%bool
  end.

(** The duration text as the specification words it: the non-zero
    components of the floor decomposition, each with its unit in the
    singular exactly at 1, joined by a comma. *)
Module Spec.

Definition decompose (seconds : Z) : Z * Z * Z :=
  (seconds / 86400, (seconds mod 86400) / 3600, (seconds mod 3600) / 60).

Definition pluralize (n : Z) (unit : string) : string :=
  Py.str_of_int n ++ " " ++ (if n =? 1 then unit else unit ++ "s").

Definition format_duration (seconds : Z) : string :=
  if seconds =? 0 then "Expired"
  else
    let '(days, hours, minutes) := decompose seconds in
    let components :=
      filter (fun c => negb (fst c =? 0))
             [(days, "day"); (hours, "hour"); (minutes, "minute")] in
    match components with
    | [] => "Less than a minute"
    | _ => Py.join ", " (map (fun c => pluralize (fst c) (snd c)) components)
    end.

End Spec.

(** The common shape of the three per-wallet operations of the reader. *)
Definition wallet_read {W A : Type} (op fn : string)
    (call : string -> W -> (Py.pyexn + A) * W) (wallet_address : string)
  : Eff.M A :=
  Eff.emit (ReaderOp op (Some wallet_address)) ;;;
  Eff.try_except
    (checksum_address <- Eff.lift (EthUtils.to_checksum_address wallet_address) ;;
     v <- Eff.remote_call fn (Some checksum_address) (call checksum_address) ;;
     Eff.ret v)
    Py.is_ValueError
    (fun e => Eff.raise
                (Py.ValueError ("Invalid wallet address: " ++ wallet_address)
                               (Some e))).

(** Two nodes to run the code on: one that answers every read, one that
    cannot be reached.  The world is the number of calls made so far. *)
Definition sample_node : Node nat :=
  mk_Node nat
    (fun _ w => (inr true, S w))
    (fun _ w => (inr 1737216000, S w))
    (fun _ w => (inr 90000, S w))
    (fun w => (inr 1000000000000000, S w))
    (fun w => (inr 2592000, S w))
    (fun w => (inr 42, S w))
    (fun w => (inr 42000000000000000, S w))
    (fun w => (inr 42000000000000000, S w)).

Definition connection_error : Py.pyexn :=
  Py.PyExn "ConnectionError" false "Max retries exceeded" None.

Definition offline_node : Node nat :=
  mk_Node nat
    (fun _ w => (inl connection_error, S w))
    (fun _ w => (inl connection_error, S w))
    (fun _ w => (inl connection_error, S w))
    (fun w => (inl connection_error, S w))
    (fun w => (inl connection_error, S w))
    (fun w => (inl connection_error, S w))
    (fun w => (inl connection_error, S w))
    (fun w => (inl connection_error, S w)).

Definition lower_address : string := "0x5aaeb6053f3e94c9b9a09f33669435e7ef1beaed".
Definition upper_address : string := "0x5AAEB6053F3E94C9B9A09F33669435E7EF1BEAED".
Definition checksum_of_address : string := "0x5aAeb6053F3E94C9b9A09f33669435E7Ef1BeAed".

(** ** A second effect monad, for the code outside the four reads

    Start-up and the event queries talk to other parts of the outside
    world (the connection, the file system, the event filters), and their
    traces have their own events. *)

Module Run.

Section Monad.
Context {W E : Type}.

Definition state : Type := W * list E.

Definition M (A : Type) : Type := state -> (Py.pyexn + A) * state.

Definition ret {A} (a : A) : M A := fun s => (inr a, s).

Definition raise {A} (e : Py.pyexn) : M A := fun s => (inl e, s).

Definition bind {A B} (m : M A) (k : A -> M B) : M B :=
  fun s =>
    match m s with
    | (inl e, s') => (inl e, s')
    | (inr a, s') => k a s'
    end.

Definition lift {A} (r : Py.pyexn + A) : M A := fun s => (r, s).

Definition emit (ev : E) : M unit :=
  fun s => (inr tt, (fst s, (snd s ++ [ev])%list)).

(** An effect of the outside world, recorded by the event [ev]. *)
Definition effect {A} (ev : E) (f : W -> A * W) : M A :=
  fun s => (inr (fst (f (fst s))), (snd (f (fst s)), (snd s ++ [ev])%list)).

(** An effect of the outside world that may raise. *)
Definition attempt {A} (ev : E) (f : W -> (Py.pyexn + A) * W) : M A :=
  fun s => (fst (f (fst s)), (snd (f (fst s)), (snd s ++ [ev])%list)).

Definition try_except {A} (m : M A) (catches : Py.pyexn -> bool)
    (h : Py.pyexn -> M A) : M A :=
  fun s =>
    match m s with
    | (inl e, s') => if catches e then h e s' else (inl e, s')
    | (inr a, s') => (inr a, s')
    end.

End Monad.

End Run.

Notation "x <~ m ;; k" := (Run.bind m (fun x => k))
  (at level 61, m at next level, right associativity).
Notation "m ;;~ k" := (Run.bind m (fun _ => k))
  (at level 61, right associativity).

(** ** The trace of a start *)

(** The lines the program prints while it starts. *)
Inductive boot_line : Type :=
| Line_connected (chain_id : Z)           (* Connected to Sepolia (Chain ID: ...) *)
| Line_contract_loaded (address : string) (* Contract loaded at ... *)
| Line_init_failed (e : Py.pyexn)     (* ERROR: Failed to initialize blockchain service: ... *)
| Line_check_env                      (* Make sure .env file is configured correctly. *)
| Line_config_validated               (* Configuration validated successfully *)
| Line_app_initialized                (* Flask app initialized successfully *)
| Line_config_error (e : Py.pyexn)    (* ERROR: Configuration error - ... *)
| Line_service_unavailable.           (* ERROR: Blockchain service not available *)

Inductive boot_event : Type :=
| Connect (url : option string)   (* w3.is_connected() on the provider of the URL *)
| ReadChainId                     (* w3.eth.chain_id *)
| OpenFile (path : string)        (* open(path, 'r') and json.load *)
| Say (line : boot_line).         (* print *)

(** ** config.py *)

Module Config.

Record t : Type := mk {
  SEPOLIA_RPC_URL : option string;
  CONTRACT_ADDRESS : option string;
  FLASK_ENV : string;
  FLASK_DEBUG : bool
}.

(** [os.getenv(name, default)]. *)
Definition getenv (environ : string -> option string) (name default : string)
  : string :=
  match environ name with
  | Some v => v
  | None => default
  end.

(** The class attributes, read from the environment when the module is
    imported. *)
Definition load (environ : string -> option string) : t :=
  mk (environ "SEPOLIA_RPC_URL")
     (environ "CONTRACT_ADDRESS")
     (getenv environ "FLASK_ENV" "development")
     (String.eqb (Py.lower (getenv environ "FLASK_DEBUG" "True")) "true").

(** [not v] for a value that is [None] or a text. *)
Definition not_ (v : option string) : bool :=
  match v with
  | None => true
  | Some s => String.eqb s ""
  end.

(** [v.startswith(p)] for a value that is a text; on [None], which the
    tests before it exclude, the attribute is missing. *)
Definition startswith_value (v : option string) (p : string)
  : Py.pyexn + bool :=
  match v with
  | Some s => inr (Py.startswith s p)
  | None =>
      inl (Py.PyExn "AttributeError" false
             "'NoneType' object has no attribute 'startswith'" None)
  end.

(** config.py, [Config.validate]. *)
Definition validate {W : Type} (c : t)
  : Run.M (W := W) (E := boot_event) unit :=
  if not_ (SEPOLIA_RPC_URL c) then
    Run.raise (Py.ValueError "SEPOLIA_RPC_URL not set in .env file" None)
  else if not_ (CONTRACT_ADDRESS c) then
    Run.raise (Py.ValueError "CONTRACT_ADDRESS not set in .env file" None)
  else
    prefixed <~ Run.lift (startswith_value (CONTRACT_ADDRESS c) "0x") ;;
    if negb prefixed then
      Run.raise (Py.ValueError
                   "CONTRACT_ADDRESS must be a valid Ethereum address" None)
    else Run.emit (Say Line_config_validated).

End Config.

(** ** blockchain.py: the start of the service *)

(** What start-up needs of the outside world: the liveness test of the
    provider, the read of the chain id, the read of a JSON file, and the
    construction of the contract object from an address and an ABI. *)
Record Host (W : Type) : Type := mk_Host {
  is_connected : option string -> W -> bool * W;
  chain_id : W -> (Py.pyexn + Z) * W;
  load_json_file : string -> W -> (Py.pyexn + json) * W;
  make_contract : string -> json -> Py.pyexn + Node W
}.

Arguments is_connected {W}.
Arguments chain_id {W}.
Arguments load_json_file {W}.
Arguments make_contract {W}.

(** The object [BlockchainService()] builds. *)
Record Service (W : Type) : Type := mk_Service {
  service_address : string;      (* self.contract_address *)
  service_abi : json;            (* self.contract_abi *)
  service_contract : Node W      (* self.contract *)
}.

Arguments mk_Service {W}.
Arguments service_address {W}.
Arguments service_abi {W}.
Arguments service_contract {W}.

Module BlockchainInit.

(** [Web3.to_checksum_address] on a configuration value, which is [None]
    when the variable is not set: a value that is not a text is a
    [TypeError]. *)
Definition to_checksum_address_value (v : option string) : Py.pyexn + string :=
  match v with
  | Some s => EthUtils.to_checksum_address s
  | None =>
      inl (Py.PyExn "TypeError" false
             "Unsupported type: '<class 'NoneType'>'. Must be one of: bool, str, bytes, bytearray or int."
             None)
  end.

Definition is_FileNotFoundError (e : Py.pyexn) : bool :=
  String.eqb (Py.exn_class e) "FileNotFoundError".

Section Init.
Context {W : Type} (host : Host W) (config : Config.t).

(** blockchain.py, [_load_abi]. *)
Definition _load_abi : Run.M (W := W) (E := boot_event) json :=
  Run.try_except
    (Run.attempt (OpenFile "contract_abi.json")
       (load_json_file host "contract_abi.json"))
    is_FileNotFoundError
    (fun e =>
       Run.raise
         (Py.PyExn "FileNotFoundError" false
            "contract_abi.json not found. Generate it after deploying your contract in Remix."
            (Some e))).

(** blockchain.py, [BlockchainService.__init__]. *)
Definition __init__ : Run.M (W := W) (E := boot_event) (Service W) :=
  connected <~ Run.effect (Connect (Config.SEPOLIA_RPC_URL config))
                 (is_connected host (Config.SEPOLIA_RPC_URL config)) ;;
  if negb connected then
    Run.raise (Py.PyExn "ConnectionError" false
                 "Failed to connect to Sepolia RPC" None)
  else
    id <~ Run.attempt ReadChainId (chain_id host) ;;
    Run.emit (Say (Line_connected id)) ;;~
    contract_address <~
      Run.lift (to_checksum_address_value (Config.CONTRACT_ADDRESS config)) ;;
    contract_abi <~ _load_abi ;;
    contract <~ Run.lift (make_contract host contract_address contract_abi) ;;
    Run.emit (Say (Line_contract_loaded contract_address)) ;;~
    Run.ret (mk_Service contract_address contract_abi contract).

(** The end of blockchain.py: the singleton, or [None] when its
    construction raises. *)
Definition blockchain_service
  : Run.state (W := W) (E := boot_event)
    -> option (Service W) * Run.state (W := W) (E := boot_event) :=
  fun s =>
    match __init__ s with
    | (inr service, s') => (Some service, s')
    | (inl e, s') =>
        (None,
         (fst s', (snd s' ++ [Say (Line_init_failed e); Say Line_check_env])%list))
    end.

End Init.

End BlockchainInit.

(** ** app.py: start-up *)

Module AppStartup.

(** How the import of app.py ends: the process exits with a code, or dies
    of an exception nobody caught, or the application is ready with its
    service. *)
Inductive outcome (W : Type) : Type :=
| Exited (code : Z)
| Uncaught (e : Py.pyexn)
| Ready (service : Service W).

Arguments Exited {W}.
Arguments Uncaught {W}.
Arguments Ready {W}.

Section Startup.
Context {W : Type} (host : Host W) (config : Config.t).

Definition say (line : boot_line)
    (s : Run.state (W := W) (E := boot_event))
  : Run.state (W := W) (E := boot_event) :=
  (fst s, (snd s ++ [Say line])%list).

(** app.py, lines 23-44: the imports run blockchain.py first; then the
    configuration is validated, where a [ValueError] ends the process
    with code 1; then a missing service ends it with code 1. *)
Definition startup (s : Run.state (W := W) (E := boot_event))
  : outcome W * Run.state (W := W) (E := boot_event) :=
  let '(service, s1) := BlockchainInit.blockchain_service host config s in
  match Config.validate config s1 with
  | (inl e, s2) =>
      if Py.is_ValueError e then (Exited 1, say (Line_config_error e) s2)
      else (Uncaught e, s2)
  | (inr _, s2) =>
      let s3 := say Line_app_initialized s2 in
      match service with
      | None => (Exited 1, say Line_service_unavailable s3)
      | Some sv => (Ready sv, s3)
      end
  end.

End Startup.

End AppStartup.

(** ** blockchain.py: the example of an event query *)

(** The event filters of the contract: the creation of a filter for one
    event, from a block, for a user; and the read of its entries. *)
Record EventLog (W F : Type) : Type := mk_EventLog {
  create_filter : string -> Z -> string -> W -> (Py.pyexn + F) * W;
  get_all_entries : F -> W -> (Py.pyexn + list json) * W
}.

Arguments create_filter {W F}.
Arguments get_all_entries {W F}.

Inductive log_event : Type :=
| CreateFilter (event : string) (from_block : Z) (user : string)
| GetAllEntries (event : string).

Module BlockchainEvents.

Section Events.
Context {W F : Type} (log : EventLog W F).

(** blockchain.py, [get_subscription_events]; [from_block] is 0 when the
    caller gives none. *)
Definition get_subscription_events (wallet_address : string) (from_block : Z)
  : Run.M (W := W) (E := log_event) pydict :=
  checksum_address <~ Run.lift (EthUtils.to_checksum_address wallet_address) ;;
  subscribed_filter <~
    Run.attempt (CreateFilter "Subscribed" from_block checksum_address)
      (create_filter log "Subscribed" from_block checksum_address) ;;
  cancelled_filter <~
    Run.attempt (CreateFilter "Cancelled" from_block checksum_address)
      (create_filter log "Cancelled" from_block checksum_address) ;;
  subscribed_events <~
    Run.attempt (GetAllEntries "Subscribed")
      (get_all_entries log subscribed_filter) ;;
  cancelled_events <~
    Run.attempt (GetAllEntries "Cancelled")
      (get_all_entries log cancelled_filter) ;;
  Run.ret [ ("subscribed", JList subscribed_events);
            ("cancelled", JList cancelled_events) ].

End Events.

End BlockchainEvents.

(** A configuration [Config.validate] lets through: the endpoint is set
    and not empty, and the contract address is set and starts with 0x. *)
Definition config_ok (c : Config.t) : Prop :=
  exists url address,
    Config.SEPOLIA_RPC_URL c = Some url /\ url <> ""
    /\ Config.CONTRACT_ADDRESS c = Some address
    /\ Py.startswith address "0x" = true.

Definition config_messages : list string :=
  [ "SEPOLIA_RPC_URL not set in .env file";
    "CONTRACT_ADDRESS not set in .env file";
    "CONTRACT_ADDRESS must be a valid Ethereum address" ].

(** The events of a start that touch the chain or the file system. *)
Definition is_say (ev : boot_event) : bool :=
  match ev with
  | Say _ => true
  | _ => false
  end.

(** A host to start on, a host whose node cannot be reached, and a
    configuration. *)
Definition sample_host : Host nat :=
  mk_Host nat
    (fun _ w => (true, S w))
    (fun w => (inr 11155111, S w))
    (fun _ w => (inr (JList []), S w))
    (fun _ _ => inr sample_node).

Definition unreachable_host : Host nat :=
  mk_Host nat
    (fun _ w => (false, S w))
    (fun w => (inl connection_error, S w))
    (fun _ w => (inr (JList []), S w))
    (fun _ _ => inr offline_node).

Definition sample_config : Config.t :=
  Config.mk (Some "https://rpc.sepolia.org") (Some lower_address)
    "development" true.

(** A node whose subscriptions expire after the year 9999. *)
Definition far_future_node : Node nat :=
  mk_Node nat
    (fun _ w => (inr true, S w))
    (fun _ w => (inr 253402300800, S w))
    (fun _ w => (inr 90000, S w))
    (fun w => (inr 1000000000000000, S w))
    (fun w => (inr 2592000, S w))
    (fun w => (inr 42, S w))
    (fun w => (inr 42000000000000000, S w))
    (fun w => (inr 42000000000000000, S w)).


(** An event log with no entries; a filter is the name of its event. *)
Definition empty_log : EventLog nat string :=
  mk_EventLog nat string
    (fun event _ _ w => (inr event, S w))
    (fun _ w => (inr [], S w)).

(** The display value of an amount of wei, as the statistics carry it:
    the integer 0, or the exact decimal number of ether. *)
Definition eth_value (wei : Z) : json :=
  if wei =? 0 then JInt 0 else JDecimalWei wei.

(** The nine reads that [get_contract_stats] makes of a node, one after
    the other from the world [w] to the world [w']: the price, the
    duration, the revenue and the balance twice each. *)
Definition nine_reads {W : Type} (node : Node W) (w : W)
    (p1 p2 d1 d2 n r1 r2 b1 b2 : Z) (w' : W) : Prop :=
  exists w1 w2 w3 w4 w5 w6 w7 w8,
    SUBSCRIPTION_PRICE node w = (inr p1, w1)
    /\ SUBSCRIPTION_PRICE node w1 = (inr p2, w2)
    /\ SUBSCRIPTION_DURATION node w2 = (inr d1, w3)
    /\ SUBSCRIPTION_DURATION node w3 = (inr d2, w4)
    /\ totalSubscribers node w4 = (inr n, w5)
    /\ totalRevenue node w5 = (inr r1, w6)
    /\ totalRevenue node w6 = (inr r2, w7)
    /\ getBalance node w7 = (inr b1, w8)
    /\ getBalance node w8 = (inr b2, w').

(** The statistics made of the values of the nine reads. *)
Definition stats_of_reads (contract_address : string)
    (p1 p2 d1 d2 n r1 r2 b1 b2 : Z) : pydict :=
  [ ("subscription_price_wei", JInt p1);
    ("subscription_price_eth", eth_value p2);
    ("subscription_duration_seconds", JInt d1);
    ("subscription_duration_days", JFloatDiv d2 86400);
    ("total_subscribers", JInt n);
    ("total_revenue_wei", JInt r1);
    ("total_revenue_eth", eth_value r2);
    ("contract_balance_wei", JInt b1);
    ("contract_balance_eth", eth_value b2);
    ("contract_address", JStr contract_address) ].

(** The trace of [get_contract_stats] when every read is answered. *)
Definition stats_trace : list event :=
  [ ReaderOp "get_contract_stats" None;
    RemoteCall "SUBSCRIPTION_PRICE" None true;
    RemoteCall "SUBSCRIPTION_PRICE" None true;
    RemoteCall "SUBSCRIPTION_DURATION" None true;
    RemoteCall "SUBSCRIPTION_DURATION" None true;
    RemoteCall "totalSubscribers" None true;
    RemoteCall "totalRevenue" None true;
    RemoteCall "totalRevenue" None true;
    RemoteCall "getBalance" None true;
    RemoteCall "getBalance" None true ].

(** The values that [from_wei] converts and that the division by 86400
    turns into a float. *)
Definition convertible (p2 d2 r2 b2 : Z) : Prop :=
  0 <= p2 <= 2 ^ 256 - 1
  /\ 0 <= r2 <= 2 ^ 256 - 1
  /\ 0 <= b2 <= 2 ^ 256 - 1
  /\ Z.abs d2 < 86400 * (2 ^ 1024 - 2 ^ 970).

(** A node whose counters move between two reads: every read answers a
    value that grows with the number of reads made before it. *)
Definition drifting_node : Node nat :=
  mk_Node nat
    (fun _ w => (inr true, S w))
    (fun _ w => (inr (1737216000 + Z.of_nat w), S w))
    (fun _ w => (inr (90000 - Z.of_nat w), S w))
    (fun w => (inr (1000 + Z.of_nat w), S w))
    (fun w => (inr (2592000 + Z.of_nat w), S w))
    (fun w => (inr (42 + Z.of_nat w), S w))
    (fun w => (inr (5000 + Z.of_nat w), S w))
    (fun w => (inr (7000 + Z.of_nat w), S w)).

(** A node whose subscriptions all expire at the time [t]. *)
Definition expiring_node (t : Z) : Node nat :=
  mk_Node nat
    (fun _ w => (inr true, S w))
    (fun _ w => (inr t, S w))
    (fun _ w => (inr 90000, S w))
    (fun w => (inr 1000000000000000, S w))
    (fun w => (inr 2592000, S w))
    (fun w => (inr 42, S w))
    (fun w => (inr 42000000000000000, S w))
    (fun w => (inr 42000000000000000, S w)).

(** * Properties *)

(** ** The models of the libraries agree with published values *)

Example keccak_empty :
  Keccak.keccak256_hex "" =
  "c5d2460186f7233c927e7db2dcc703c0e500b653ca82273b7bfad8045d85a470".
Proof. vm_compute. reflexivity. Qed.

Example checksum_address_lower :
  EthUtils.to_checksum_address lower_address = inr checksum_of_address.
Proof. vm_compute. reflexivity. Qed.

Example checksum_address_upper_prefix :
  EthUtils.to_checksum_address "0XFB6916095CA1DF60BB79CE92CE3EA74C37C5D359"
  = inr "0xfB6916095ca1df60bB79Ce92cE3Ea74c37c5d359".
Proof. vm_compute. reflexivity. Qed.

Example checksum_address_no_prefix :
  EthUtils.to_checksum_address "dbF03B407c01E7cD3CBea99509d93f8DDDC8C6FB"
  = inr "0xdbF03B407c01E7cD3CBea99509d93f8DDDC8C6FB".
Proof. vm_compute. reflexivity. Qed.

Example str_of_int_values :
  Py.str_of_int 0 = "0" /\ Py.str_of_int 42 = "42" /\ Py.str_of_int (-5) = "-5".
Proof. repeat split; reflexivity. Qed.

Example lower_values :
  Py.lower "0XaBcDeF09 Zz" = "0xabcdef09 zz".
Proof. reflexivity. Qed.

Example civil_epoch_and_bounds :
  Datetime.civil_from_days 0 = (1970, 1, 1)
  /\ Datetime.civil_from_days (-719162) = (1, 1, 1)
  /\ Datetime.civil_from_days 2932896 = (9999, 12, 31).
Proof. repeat split; reflexivity. Qed.

Example civil_leap_day :
  Datetime.civil_from_days 11016 = (2000, 2, 29).
Proof. reflexivity. Qed.

Example status_sample :
  App.serve (App.get_subscription_status sample_node (fun _ => 0) lower_address)
            (0%nat, [])
  = (([ ("wallet_address", JStr lower_address);
        ("is_active", JBool true);
        ("expiry_timestamp", JInt 1737216000);
        ("expiry_date", JStr "2025-01-18 16:00:00 UTC");
        ("remaining_seconds", JInt 90000);
        ("remaining_time", JStr "1 day, 1 hour") ], 200),
     (3%nat,
      [ ReaderOp "is_subscription_active" (Some lower_address);
        RemoteCall "isActive" (Some checksum_of_address) true;
        ReaderOp "get_subscription_expiry" (Some lower_address);
        RemoteCall "getExpiry" (Some checksum_of_address) true;
        ReaderOp "get_remaining_time" (Some lower_address);
        RemoteCall "getRemainingTime" (Some checksum_of_address) true ])).
Proof. vm_compute. reflexivity. Qed.

(** ** Strings *)

Section StringFacts.

Lemma append_empty_r (s : string) : s ++ "" = s.
Proof. induction s as [|c s IH]; simpl; [reflexivity | now rewrite IH]. Qed.

Lemma append_assoc (a b c : string) : (a ++ b) ++ c = a ++ (b ++ c).
Proof. induction a as [|x a IH]; simpl; [reflexivity | now rewrite IH]. Qed.

Lemma substring_whole (s : string) : String.substring 0 (String.length s) s = s.
Proof. induction s as [|c s IH]; simpl; [reflexivity | now rewrite IH]. Qed.

(** A text that starts with 0x is the two characters followed by a rest. *)
Lemma startswith_0x (a : string) :
  Py.startswith a "0x" = true -> exists rest, a = String "0" (String "x" rest).
Proof.
  unfold Py.startswith. intros H.
  apply String.prefix_correct in H.
  destruct a as [|c1 [|c2 rest]]; simpl in H; try discriminate.
  destruct rest; injection H as -> ->; eexists; reflexivity.
Qed.

Lemma has_space_append (a b : string) :
  has_space (a ++ b) = (has_space a || has_space b)%bool.
Proof.
  induction a as [|c a IH]; simpl; [reflexivity|].
  rewrite IH. now rewrite orb_assoc.
Qed.

End StringFacts.

(** ** validate_address *)

(** C5: the three checks of [validate_address], in order, each with its
    own message: the empty text, a text without the 0x prefix, a prefixed
    text whose length is not 42; every other text is accepted. *)
Theorem validate_address_checks (address : string) :
  (address = "" ->
   App.validate_address address = (false, Some "Address is required")) /\
  (address <> "" -> Py.startswith address "0x" = false ->
   App.validate_address address = (false, Some "Address must start with 0x")) /\
  (Py.startswith address "0x" = true -> Py.len address <> 42 ->
   App.validate_address address
   = (false, Some "Address must be 42 characters long")) /\
  (Py.startswith address "0x" = true -> Py.len address = 42 ->
   App.validate_address address = (true, None)).
Proof.
  unfold App.validate_address.
  repeat split.
  - intros ->. reflexivity.
  - intros Hne Hp.
    destruct (String.eqb_spec address "") as [E|_]; [contradiction|].
    now rewrite Hp.
  - intros Hp Hl.
    destruct (String.eqb_spec address "") as [E|_].
    + subst. cbv in Hp. discriminate Hp.
    + rewrite Hp. simpl. destruct (Z.eqb_spec (Py.len address) 42); easy.
  - intros Hp Hl.
    destruct (String.eqb_spec address "") as [E|_].
    + subst. cbv in Hp. discriminate Hp.
    + rewrite Hp, Hl. reflexivity.
Qed.

Lemma validate_address_checks_witness :
  App.validate_address "" = (false, Some "Address is required")
  /\ App.validate_address "742d35Cc" = (false, Some "Address must start with 0x")
  /\ App.validate_address "0x742d35Cc6634C0532925a3b844Bc9e7595f0bEb"
     = (false, Some "Address must be 42 characters long")
  /\ App.validate_address lower_address = (true, None).
Proof.
  split; [|split; [|split]].
  - apply (proj1 (validate_address_checks "")). reflexivity.
  - apply (proj1 (proj2 (validate_address_checks "742d35Cc"))).
    + discriminate.
    + reflexivity.
  - apply (proj1 (proj2 (proj2
             (validate_address_checks "0x742d35Cc6634C0532925a3b844Bc9e7595f0bEb")))).
    + reflexivity.
    + vm_compute. discriminate.
  - apply (proj2 (proj2 (proj2 (validate_address_checks lower_address)))).
    + reflexivity.
    + reflexivity.
Defined.

(** The check accepts exactly the address-shaped texts. *)
Lemma validate_address_accepts (address : string) :
  fst (App.validate_address address) = true <-> address_shaped address.
Proof.
  unfold address_shaped, App.validate_address.
  destruct (String.eqb_spec address "") as [->|_]; simpl.
  - split; [discriminate | intros [H _]; cbv in H; discriminate H].
  - destruct (Py.startswith address "0x"); simpl.
    + destruct (Z.eqb_spec (Py.len address) 42); simpl.
      * tauto.
      * split; [discriminate | tauto].
    + split; [discriminate | intros [H _]; discriminate H].
Qed.


Lemma validate_address_cases (a : string) :
  App.validate_address a = (true, None)
  \/ exists msg, App.validate_address a = (false, Some msg).
Proof.
  unfold App.validate_address.
  destruct (String.eqb a ""); [right; eexists; reflexivity|].
  destruct (Py.startswith a "0x"); cbn [negb]; [|right; eexists; reflexivity].
  destruct (Py.len a =? 42); cbn [negb]; [left|right; eexists]; reflexivity.
Qed.

(** An address-shaped text passes the check. *)
Lemma validate_address_shaped (a : string) :
  address_shaped a -> App.validate_address a = (true, None).
Proof.
  intros Hs. apply validate_address_accepts in Hs.
  destruct (validate_address_cases a) as [Hv|[msg Hv]]; [assumption|].
  rewrite Hv in Hs. discriminate Hs.
Qed.

(** ** format_duration *)

Lemma unit_text_pluralize (n : Z) (unit : string) :
  App.unit_text n unit = Spec.pluralize n unit.
Proof.
  unfold App.unit_text, Spec.pluralize.
  destruct (n =? 1); cbn [negb]; [now rewrite append_empty_r | reflexivity].
Qed.

(** Floor division by the day, the hour and the minute: the three
    components are in range and lose less than a minute. *)
Lemma decompose_bounds (seconds : Z) :
  let '(d, h, m) := Spec.decompose seconds in
  0 <= h < 24 /\ 0 <= m < 60 /\
  86400 * d + 3600 * h + 60 * m <= seconds
  < 86400 * d + 3600 * h + 60 * m + 60.
Proof.
  unfold Spec.decompose.
  assert (E : seconds mod 3600 = (seconds mod 86400) mod 3600).
  { symmetry. apply Z.mod_mod_divide. exists 24. reflexivity. }
  rewrite E.
  pose proof (Z.div_mod seconds 86400 ltac:(lia)) as H1.
  pose proof (Z.mod_pos_bound seconds 86400 ltac:(lia)) as B1.
  set (r := seconds mod 86400) in *.
  pose proof (Z.div_mod r 3600 ltac:(lia)) as H2.
  pose proof (Z.mod_pos_bound r 3600 ltac:(lia)) as B2.
  set (q := r mod 3600) in *.
  pose proof (Z.div_mod q 60 ltac:(lia)) as H3.
  pose proof (Z.mod_pos_bound q 60 ltac:(lia)) as B3.
  lia.
Qed.

(** The code's text, with the three guards still to be decided. *)
Lemma format_duration_parts (seconds : Z) :
  seconds <> 0 ->
  App.format_duration seconds =
  let '(d, h, m) := Spec.decompose seconds in
  match ((if 0 <? d then [App.unit_text d "day"] else [])
         ++ (if 0 <? h then [App.unit_text h "hour"] else [])
         ++ (if 0 <? m then [App.unit_text m "minute"] else []))%list with
  | [] => "Less than a minute"
  | parts => Py.join ", " parts
  end.
Proof.
  intros Hne. unfold App.format_duration, Spec.decompose.
  destruct (Z.eqb_spec seconds 0) as [E|_]; [contradiction|].
  destruct (0 <? seconds / 86400), (0 <? seconds mod 86400 / 3600),
    (0 <? seconds mod 3600 / 60); reflexivity.
Qed.

(** C4: on a non-negative number of seconds [format_duration] is the text
    the specification describes: "Expired" for 0, otherwise the non-zero
    components of the floor decomposition into days, hours and minutes
    (the seconds are dropped), each unit in the singular exactly at 1,
    joined by a comma, and "Less than a minute" when all three are zero;
    with the five published values. *)
Theorem format_duration_nonnegative :
  (forall seconds : Z, 0 <= seconds ->
     App.format_duration seconds = Spec.format_duration seconds
     /\ (let '(d, h, m) := Spec.decompose seconds in
         0 <= d /\ 0 <= h < 24 /\ 0 <= m < 60 /\
         86400 * d + 3600 * h + 60 * m <= seconds
         < 86400 * d + 3600 * h + 60 * m + 60))
  /\ App.format_duration 0 = "Expired"
  /\ App.format_duration 59 = "Less than a minute"
  /\ App.format_duration 90 = "1 minute"
  /\ App.format_duration 3661 = "1 hour, 1 minute"
  /\ App.format_duration 90000 = "1 day, 1 hour".
Proof.
  split; [|repeat split; vm_compute; reflexivity].
  intros seconds Hs. split.
  - destruct (Z.eq_dec seconds 0) as [->|Hne]; [reflexivity|].
    rewrite (format_duration_parts seconds Hne).
    unfold Spec.format_duration.
    destruct (Z.eqb_spec seconds 0) as [E|_]; [contradiction|].
    pose proof (decompose_bounds seconds) as B.
    destruct (Spec.decompose seconds) as [[d h] m] eqn:D.
    assert (Hd : 0 <= d).
    { unfold Spec.decompose in D. injection D as <- _ _.
      apply Z.div_pos; lia. }
    cbn [filter fst snd].
    destruct (Z.ltb_spec 0 d), (Z.eqb_spec d 0); try lia;
      destruct (Z.ltb_spec 0 h), (Z.eqb_spec h 0); try lia;
      destruct (Z.ltb_spec 0 m), (Z.eqb_spec m 0); try lia;
      cbn [negb map app fst snd];
      rewrite <- ?unit_text_pluralize; reflexivity.
  - pose proof (decompose_bounds seconds) as B.
    destruct (Spec.decompose seconds) as [[d h] m] eqn:D.
    assert (Hd : 0 <= d).
    { unfold Spec.decompose in D. injection D as <- _ _.
      apply Z.div_pos; lia. }
    lia.
Qed.

Lemma format_duration_nonnegative_witness :
  0 <= 3661
  /\ App.format_duration 3661 = Spec.format_duration 3661
  /\ Spec.decompose 3661 = (0, 1, 1).
Proof.
  split; [lia|].
  split.
  - apply (proj1 (proj1 format_duration_nonnegative 3661 ltac:(lia))).
  - reflexivity.
Defined.

Lemma has_space_unit_text (n : Z) (unit : string) :
  has_space (App.unit_text n unit) = true.
Proof.
  unfold App.unit_text. rewrite has_space_append.
  apply orb_true_iff. right. reflexivity.
Qed.

Lemma has_space_join (n : Z) (unit : string) (rest : list string) :
  has_space (Py.join ", " (App.unit_text n unit :: rest)) = true.
Proof.
  unfold Py.join. destruct rest as [|y rest]; cbn [String.concat].
  - apply has_space_unit_text.
  - rewrite has_space_append, has_space_unit_text. reflexivity.
Qed.

(** Only the input 0 is reported as "Expired". *)
Lemma format_duration_expired (seconds : Z) :
  App.format_duration seconds = "Expired" <-> seconds = 0.
Proof.
  split; [|intros ->; reflexivity].
  intros H. destruct (Z.eq_dec seconds 0) as [|Hne]; [assumption|exfalso].
  rewrite (format_duration_parts seconds Hne) in H.
  destruct (Spec.decompose seconds) as [[d h] m].
  assert (S : has_space "Expired" = false) by reflexivity.
  rewrite <- H in S.
  destruct (0 <? d), (0 <? h), (0 <? m); cbn [app] in S, H;
    try (rewrite has_space_join in S; discriminate S).
  discriminate H.
Qed.

(** A negative input has a negative day count, which the guard [days > 0]
    drops, and the hours and minutes of its remainder modulo one day. *)
Lemma format_duration_negative (seconds : Z) :
  seconds < 0 ->
  App.format_duration seconds =
  if seconds mod 86400 =? 0 then "Less than a minute"
  else App.format_duration (seconds mod 86400).
Proof.
  intros Hneg.
  rewrite (format_duration_parts seconds) by lia.
  unfold Spec.decompose.
  assert (E : seconds mod 3600 = (seconds mod 86400) mod 3600).
  { symmetry. apply Z.mod_mod_divide. exists 24. reflexivity. }
  assert (Hd : (0 <? seconds / 86400) = false).
  { apply Z.ltb_ge. pose proof (Z.div_lt_upper_bound seconds 86400 0). lia. }
  rewrite Hd. cbn [app].
  pose proof (Z.mod_pos_bound seconds 86400 ltac:(lia)) as B.
  set (r := seconds mod 86400) in *.
  destruct (Z.eqb_spec r 0) as [R0|Rne].
  - rewrite E, R0. reflexivity.
  - rewrite (format_duration_parts r Rne). unfold Spec.decompose.
    rewrite (Z.mod_small r 86400) by lia.
    rewrite (Z.div_small r 86400) by lia.
    rewrite E. reflexivity.
Qed.

(** C9, as the code has it: for every integer, [format_duration] returns
    "Expired" exactly at 0; a negative input is not reported as expired,
    and no day count is printed for it: the text is "Less than a minute"
    for a multiple of a day and otherwise the text of the input's
    remainder modulo one day, so that -1 second gives
    "23 hours, 59 minutes". *)
Theorem format_duration_all_integers :
  (forall seconds : Z, App.format_duration seconds = "Expired" <-> seconds = 0)
  /\ (forall seconds : Z, seconds < 0 ->
        App.format_duration seconds =
        if seconds mod 86400 =? 0 then "Less than a minute"
        else App.format_duration (seconds mod 86400))
  /\ App.format_duration (-1) = "23 hours, 59 minutes".
Proof.
  split; [exact format_duration_expired|].
  split; [exact format_duration_negative|].
  vm_compute. reflexivity.
Qed.

Lemma format_duration_all_integers_witness :
  -1 < 0 /\ App.format_duration (-1) = App.format_duration 86399.
Proof.
  split; [lia|].
  apply (proj1 (proj2 format_duration_all_integers) (-1)). lia.
Defined.

(** C9 as stated fails: the text for -1 second has no day count. *)
Lemma format_duration_minus_one_counterexample :
  App.format_duration (-1) <> "-1 days, 23 hours, 59 minutes".
Proof. vm_compute. discriminate. Qed.

(** ** format_timestamp *)

(** A text that [format_timestamp] returns is the sentinel or ends in the
    label UTC. *)
Lemma format_timestamp_suffix (utcoffset : Z -> Z) (timestamp : Z) :
  match App.format_timestamp utcoffset timestamp with
  | inr text =>
      (timestamp = 0 /\ text = "Never subscribed")
      \/ (timestamp <> 0 /\ exists date, text = date ++ " UTC")
  | inl _ => timestamp <> 0
  end.
Proof.
  unfold App.format_timestamp.
  destruct (Z.eqb_spec timestamp 0) as [->|Hne]; [left; now split|].
  destruct (Datetime.fromtimestamp utcoffset timestamp) as [e|dt];
    [assumption|].
  right. split; [assumption|].
  unfold Datetime.strftime_ymd_hms_utc.
  rewrite <- !append_assoc. eexists. reflexivity.
Qed.

(** C2: [format_timestamp] gives "Never subscribed" at 0 whatever the zone
    of the host, and a text it returns at another timestamp ends in the
    label UTC; but the calendar time it prints is that of the host's local
    zone: on a host five and a half hours ahead of UTC the timestamp
    1737216000 is printed as 21:30, where the UTC time is 16:00; and a
    timestamp beyond the year 9999 raises. *)
Theorem format_timestamp_local_time :
  (forall utcoffset, App.format_timestamp utcoffset 0 = inr "Never subscribed")
  /\ (forall utcoffset timestamp,
        match App.format_timestamp utcoffset timestamp with
        | inr text =>
            (timestamp = 0 /\ text = "Never subscribed")
            \/ (timestamp <> 0 /\ exists date, text = date ++ " UTC")
        | inl _ => timestamp <> 0
        end)
  /\ App.format_timestamp (fun _ => 0) 1737216000
     = inr "2025-01-18 16:00:00 UTC"
  /\ App.format_timestamp (fun _ => 19800) 1737216000
     = inr "2025-01-18 21:30:00 UTC"
  /\ App.format_timestamp (fun _ => 0) 253402300800
     = inl (Py.ValueError "year 10000 is out of range" None).
Proof.
  split; [reflexivity|].
  split; [exact format_timestamp_suffix|].
  repeat split; vm_compute; reflexivity.
Qed.

(** ** The checksum form of an address *)

Lemma to_normalized_address_error (value : string) (e : Py.pyexn) :
  EthUtils.to_normalized_address value = inl e -> Py.is_ValueError e = true.
Proof.
  unfold EthUtils.to_normalized_address.
  destruct (_ && _)%bool.
  - intros [= <-]. reflexivity.
  - destruct (EthUtils.is_hex_address _); [discriminate|].
    intros [= <-]. reflexivity.
Qed.

(** Normalization fails with a [ValueError] and nothing else. *)
Lemma to_checksum_address_error (value : string) (e : Py.pyexn) :
  EthUtils.to_checksum_address value = inl e -> Py.is_ValueError e = true.
Proof.
  unfold EthUtils.to_checksum_address.
  destruct (EthUtils.to_normalized_address value) as [e'|n] eqn:E;
    [|discriminate].
  intros [= <-]. exact (to_normalized_address_error _ _ E).
Qed.

Lemma remove_0x_prefix_0x (rest : string) :
  EthUtils.remove_0x_prefix (String "0" (String "x" rest)) = rest.
Proof.
  unfold EthUtils.remove_0x_prefix.
  replace (EthUtils.is_0x_prefixed (String "0" (String "x" rest))) with true.
  - cbn [String.length Nat.sub String.substring].
    rewrite Nat.sub_0_r. apply substring_whole.
  - symmetry. unfold EthUtils.is_0x_prefixed, Py.startswith.
    apply orb_true_iff. left. apply String.prefix_correct.
    destruct rest; reflexivity.
Qed.

(** A prefixed text of 42 characters with a character that is not a hex
    digit is refused by the normalization. *)
Lemma to_checksum_address_non_hex (a : string) :
  address_shaped a -> has_non_hex_digit a = true ->
  EthUtils.to_checksum_address a
  = inl (Py.ValueError
           ("when sending a str, it must be a hex string. Got: "
            ++ EthUtils.quoted a) None).
Proof.
  intros [Hp Hl] Hx.
  destruct (startswith_0x a Hp) as [rest ->].
  assert (Hlen : String.length rest = 40%nat).
  { unfold Py.len in Hl. cbn [String.length] in Hl. lia. }
  unfold has_non_hex_digit in Hx. cbn [String.substring] in Hx.
  rewrite <- Hlen, substring_whole in Hx.
  apply negb_true_iff in Hx.
  unfold EthUtils.to_checksum_address, EthUtils.to_normalized_address,
    EthUtils.is_hexstr.
  rewrite remove_0x_prefix_0x, Hx.
  destruct rest as [|c r]; [discriminate Hlen|].
  reflexivity.
Qed.

(** ** The chain reader *)

Section ReaderFacts.
Context {W : Type} (node : Node W).

(** What a per-wallet operation does: it records its entry, normalizes
    the address, issues one remote call with the checksum form, and turns
    every [ValueError] into the error of an invalid address; any other
    exception of the remote call leaves the operation as it is. *)
Lemma wallet_read_run {A : Type} (op fn : string)
    (call : string -> W -> (Py.pyexn + A) * W) (a : string)
    (s : Eff.state (W := W)) :
  wallet_read op fn call a s =
  let tr := (snd s ++ [ReaderOp op (Some a)])%list in
  match EthUtils.to_checksum_address a with
  | inl e =>
      (inl (Py.ValueError ("Invalid wallet address: " ++ a) (Some e)),
       (fst s, tr))
  | inr c =>
      match fst (call c (fst s)) with
      | inl e =>
          (inl (if Py.is_ValueError e
                then Py.ValueError ("Invalid wallet address: " ++ a) (Some e)
                else e),
           (snd (call c (fst s)), (tr ++ [RemoteCall fn (Some c) false])%list))
      | inr v =>
          (inr v,
           (snd (call c (fst s)), (tr ++ [RemoteCall fn (Some c) true])%list))
      end
  end.
Proof.
  unfold wallet_read, Eff.bind, Eff.emit, Eff.try_except, Eff.lift,
    Eff.remote_call, Eff.ret, Eff.raise.
  cbn [fst snd].
  destruct (EthUtils.to_checksum_address a) as [e|c] eqn:E.
  - rewrite (to_checksum_address_error _ _ E). reflexivity.
  - destruct (call c (fst s)) as [[e|v] w']; cbn [fst snd Eff.is_ok].
    + destruct (Py.is_ValueError e); reflexivity.
    + reflexivity.
Qed.

Lemma is_subscription_active_run (a : string) :
  BlockchainService.is_subscription_active node a
  = wallet_read "is_subscription_active" "isActive" (isActive node) a.
Proof. reflexivity. Qed.

Lemma get_subscription_expiry_run (a : string) :
  BlockchainService.get_subscription_expiry node a
  = wallet_read "get_subscription_expiry" "getExpiry" (getExpiry node) a.
Proof. reflexivity. Qed.

Lemma get_remaining_time_run (a : string) :
  BlockchainService.get_remaining_time node a
  = wallet_read "get_remaining_time" "getRemainingTime"
      (getRemainingTime node) a.
Proof. reflexivity. Qed.

End ReaderFacts.

Section ReaderOutcomes.
Context {W : Type} (node : Node W) (contract_address : string).

Lemma wallet_read_outcome {A : Type} (op fn : string)
    (call : string -> W -> (Py.pyexn + A) * W) (a : string)
    (s : Eff.state (W := W)) :
  wallet_outcome call a (fst s) (fst (wallet_read op fn call a s)).
Proof.
  rewrite wallet_read_run. cbv zeta.
  destruct (EthUtils.to_checksum_address a) as [e|c] eqn:E; cbn [fst].
  - left. unfold is_InvalidAddress. cbn [Py.exn_class Py.str Py.ValueError].
    rewrite !String.eqb_refl. reflexivity.
  - destruct (fst (call c (fst s))) as [e|v] eqn:C; cbn [fst wallet_outcome];
      [|exact I].
    destruct (Py.is_ValueError e) eqn:V.
    + left. unfold is_InvalidAddress. cbn [Py.exn_class Py.str Py.ValueError].
      rewrite !String.eqb_refl. reflexivity.
    + right. split; [assumption|]. exists c. now split.
Qed.

Lemma get_contract_stats_outcome (s : Eff.state (W := W)) :
  stats_outcome
    (fst (BlockchainService.get_contract_stats node contract_address s)).
Proof.
  unfold BlockchainService.get_contract_stats.
  unfold Eff.bind at 1. unfold Eff.emit at 1. unfold Eff.try_except.
  match goal with
  | |- context [match ?m ?st with _ => _ end] =>
      destruct (m st) as [[e|v] s']
  end; cbn [fst stats_outcome Eff.raise]; [|exact I].
  unfold is_RemoteCallFailure. cbn [Py.cause Py.exn_class Py.str Py.Exception].
  rewrite !String.eqb_refl. reflexivity.
Qed.

End ReaderOutcomes.

(** C3, as the code has it: [get_contract_stats] returns a value or fails
    with the generic exception that wraps the cause; each per-wallet
    operation returns a value, or fails with the error of an invalid
    address (when the normalization fails, and also when the remote call
    raises a [ValueError]), or lets the exception of the remote call
    through unchanged when that is not a [ValueError]. *)
Theorem reader_outcomes {W : Type} (node : Node W) (contract_address : string)
    (a : string) (s : Eff.state (W := W)) :
  wallet_outcome (isActive node) a (fst s)
    (fst (BlockchainService.is_subscription_active node a s))
  /\ wallet_outcome (getExpiry node) a (fst s)
       (fst (BlockchainService.get_subscription_expiry node a s))
  /\ wallet_outcome (getRemainingTime node) a (fst s)
       (fst (BlockchainService.get_remaining_time node a s))
  /\ stats_outcome
       (fst (BlockchainService.get_contract_stats node contract_address s)).
Proof.
  repeat split.
  - rewrite is_subscription_active_run. apply wallet_read_outcome.
  - rewrite get_subscription_expiry_run. apply wallet_read_outcome.
  - rewrite get_remaining_time_run. apply wallet_read_outcome.
  - apply get_contract_stats_outcome.
Qed.

(** C3 as stated fails: when the node cannot be reached the per-wallet
    operation raises the connection error itself, which is neither of the
    two error kinds. *)
Lemma reader_raises_transport_error_counterexample :
  fst (BlockchainService.is_subscription_active offline_node lower_address
         (0%nat, []))
  = inl connection_error
  /\ is_InvalidAddress lower_address connection_error = false
  /\ is_RemoteCallFailure connection_error = false.
Proof. repeat split; vm_compute; reflexivity. Qed.

(** ** The per-wallet routes *)

Section RouteFacts.
Context {W : Type} (node : Node W) (utcoffset : Z -> Z).

Let status_route := App.get_subscription_status node utcoffset.
Let expiry_route := App.get_subscription_expiry node utcoffset.
Let remaining_route := App.get_remaining_time node.

(** A text the syntactic check refuses is answered at once. *)
Lemma routes_reject (a msg : string) (s : Eff.state (W := W)) :
  App.validate_address a = (false, Some msg) ->
  App.serve (status_route a) s = (([("error", JStr msg)], 400), s)
  /\ App.serve (expiry_route a) s = (([("error", JStr msg)], 400), s)
  /\ App.serve (remaining_route a) s = (([("error", JStr msg)], 400), s).
Proof.
  intros Hv.
  unfold status_route, expiry_route, remaining_route, App.serve,
    App.get_subscription_status, App.get_subscription_expiry,
    App.get_remaining_time, Eff.try_except_ValueError_Exception.
  rewrite Hv. repeat split; reflexivity.
Qed.

(** A text the normalization refuses is answered after the first reader
    operation, with the message of the reader. *)
Lemma routes_invalid_address (a : string) (e : Py.pyexn)
    (s : Eff.state (W := W)) :
  App.validate_address a = (true, None) ->
  EthUtils.to_checksum_address a = inl e ->
  let r := ([("error", JStr ("Invalid wallet address: " ++ a))], 400) in
  App.serve (status_route a) s
  = (r, (fst s, (snd s ++ [ReaderOp "is_subscription_active" (Some a)])%list))
  /\ App.serve (expiry_route a) s
     = (r, (fst s, (snd s ++ [ReaderOp "get_subscription_expiry" (Some a)])%list))
  /\ App.serve (remaining_route a) s
     = (r, (fst s, (snd s ++ [ReaderOp "get_remaining_time" (Some a)])%list)).
Proof.
  intros Hv He.
  unfold status_route, expiry_route, remaining_route, App.serve,
    App.get_subscription_status, App.get_subscription_expiry,
    App.get_remaining_time, Eff.try_except_ValueError_Exception.
  rewrite Hv. cbn [negb]. unfold Eff.bind.
  rewrite is_subscription_active_run, get_subscription_expiry_run,
    get_remaining_time_run, !wallet_read_run.
  cbv zeta. rewrite He. repeat split; reflexivity.
Qed.

End RouteFacts.



(** C7: a text of 42 characters with the 0x prefix and a character that is
    not a hex digit passes the syntactic check and is refused by the
    normalization of the reader; each per-wallet route then answers 400
    with the reader's message, which is none of the three messages of the
    syntactic check, and no remote call is issued. *)
Theorem non_hex_address_rejected_by_reader {W : Type} (node : Node W)
    (utcoffset : Z -> Z) (a : string) (s : Eff.state (W := W)) :
  address_shaped a -> has_non_hex_digit a = true ->
  App.validate_address a = (true, None)
  /\ (exists e, EthUtils.to_checksum_address a = inl e
                /\ Py.is_ValueError e = true)
  /\ ~ In ("Invalid wallet address: " ++ a) syntactic_messages
  /\ App.serve (App.get_subscription_status node utcoffset a) s
     = (([("error", JStr ("Invalid wallet address: " ++ a))], 400),
        (fst s, (snd s ++ [ReaderOp "is_subscription_active" (Some a)])%list))
  /\ App.serve (App.get_subscription_expiry node utcoffset a) s
     = (([("error", JStr ("Invalid wallet address: " ++ a))], 400),
        (fst s, (snd s ++ [ReaderOp "get_subscription_expiry" (Some a)])%list))
  /\ App.serve (App.get_remaining_time node a) s
     = (([("error", JStr ("Invalid wallet address: " ++ a))], 400),
        (fst s, (snd s ++ [ReaderOp "get_remaining_time" (Some a)])%list)).
Proof.
  intros Hs Hx.
  pose proof (validate_address_shaped a Hs) as Hv.
  pose proof (to_checksum_address_non_hex a Hs Hx) as He.
  split; [assumption|].
  split; [eexists; split; [exact He | reflexivity]|].
  split.
  - unfold syntactic_messages. cbn [In String.append].
    intros [H|[H|[H|[]]]]; discriminate H.
  - exact (routes_invalid_address node utcoffset a _ s Hv He).
Qed.

(** ** Letter case *)

Lemma is_hex_char_lower (c : ascii) :
  EthUtils.is_hex_char (Py.lower_ascii c) = EthUtils.is_hex_char c.
Proof. destruct c as [[] [] [] [] [] [] [] []]; reflexivity. Qed.

Lemma hex_digits_lower (s : string) :
  Py.string_forallb EthUtils.is_hex_char (Py.lower s)
  = Py.string_forallb EthUtils.is_hex_char s.
Proof.
  induction s as [|c s IH]; [reflexivity|].
  cbn [Py.lower Py.map_string Py.string_forallb].
  fold (Py.lower s). now rewrite IH, is_hex_char_lower.
Qed.

(** Two spellings of an address-shaped text that differ in letter case
    only are both refused by the normalization, or both have the same
    checksum form. *)
Lemma to_checksum_address_case (a b : string) :
  address_shaped a -> address_shaped b -> same_up_to_case a b ->
  (exists c, EthUtils.to_checksum_address a = inr c
             /\ EthUtils.to_checksum_address b = inr c)
  \/ (exists ea eb, EthUtils.to_checksum_address a = inl ea
                    /\ EthUtils.to_checksum_address b = inl eb).
Proof.
  intros [Hpa Hla] [Hpb Hlb] Hcase.
  destruct (startswith_0x a Hpa) as [ra Ea].
  destruct (startswith_0x b Hpb) as [rb Eb].
  assert (Hra : ra <> "").
  { intros ->. subst a. vm_compute in Hla. discriminate Hla. }
  assert (Hrb : rb <> "").
  { intros ->. subst b. vm_compute in Hlb. discriminate Hlb. }
  assert (Hlow : Py.lower ra = Py.lower rb).
  { unfold same_up_to_case in Hcase. subst a b.
    cbn [Py.lower Py.map_string] in Hcase. now injection Hcase. }
  assert (Hhex : EthUtils.is_hexstr a = EthUtils.is_hexstr b).
  { unfold EthUtils.is_hexstr. subst a b. rewrite !remove_0x_prefix_0x.
    now rewrite <- (hex_digits_lower ra), <- (hex_digits_lower rb), Hlow. }
  unfold EthUtils.to_checksum_address, EthUtils.to_normalized_address.
  rewrite <- Hcase, <- Hhex.
  replace (EthUtils.remove_0x_prefix a =? "")%string with false
    by (subst a; rewrite remove_0x_prefix_0x; symmetry;
        now apply String.eqb_neq).
  replace (EthUtils.remove_0x_prefix b =? "")%string with false
    by (subst b; rewrite remove_0x_prefix_0x; symmetry;
        now apply String.eqb_neq).
  cbn [negb andb].
  destruct (EthUtils.is_hexstr a); cbn [negb].
  - destruct (EthUtils.is_hex_address _).
    + left. eexists. split; reflexivity.
    + right. do 2 eexists. split; reflexivity.
  - right. do 2 eexists. split; reflexivity.
Qed.

(** ** The outcomes of the per-wallet routes *)

Section RouteCases.
Context {W : Type} (node : Node W) (utcoffset : Z -> Z).

Lemma wallet_read_checksum {A : Type} (op fn : string)
    (call : string -> W -> (Py.pyexn + A) * W) (a c : string)
    (s : Eff.state (W := W)) :
  EthUtils.to_checksum_address a = inr c ->
  wallet_read op fn call a s =
  match fst (call c (fst s)) with
  | inl e =>
      (inl (if Py.is_ValueError e
            then Py.ValueError ("Invalid wallet address: " ++ a) (Some e)
            else e),
       (snd (call c (fst s)),
        ((snd s ++ [ReaderOp op (Some a)])
         ++ [RemoteCall fn (Some c) false])%list))
  | inr v =>
      (inr v,
       (snd (call c (fst s)),
        ((snd s ++ [ReaderOp op (Some a)])
         ++ [RemoteCall fn (Some c) true])%list))
  end.
Proof. intros E. rewrite wallet_read_run. cbv zeta. now rewrite E. Qed.

End RouteCases.

Ltac open_routes :=
  unfold App.serve, App.get_subscription_status, App.get_subscription_expiry,
    App.get_remaining_time, Eff.try_except_ValueError_Exception, Eff.bind;
  change (BlockchainService.is_subscription_active ?n)
    with (wallet_read "is_subscription_active" "isActive" (isActive n));
  change (BlockchainService.get_subscription_expiry ?n)
    with (wallet_read "get_subscription_expiry" "getExpiry" (getExpiry n));
  change (BlockchainService.get_remaining_time ?n)
    with (wallet_read "get_remaining_time" "getRemainingTime"
            (getRemainingTime n)).

Ltac run :=
  cbn [fst snd negb Eff.ret Eff.emit Eff.lift Eff.raise Eff.is_ok
       App.internal_error App.internal_server_error
       Py.is_ValueError Py.ValueError Py.str status body
       events_of world_of] in *.

(** One step of a request whose address has a checksum form: enter the
    next reader operation by the lemma [enter], or decide the remote call,
    the class of its exception, or the outcome of [format_timestamp]. *)
Ltac route_step enter :=
  first
    [ match goal with
      | E : EthUtils.to_checksum_address ?a = inr ?c
        |- context [wallet_read ?op ?fn ?call ?a ?s] =>
          rewrite (enter _ _ op fn call a c s E)
      end
    | match goal with
      | |- context [isActive ?n ?c ?x] =>
          destruct (isActive n c x) as [[?e|?v] ?w]
      | |- context [getExpiry ?n ?c ?x] =>
          destruct (getExpiry n c x) as [[?e|?v] ?w]
      | |- context [getRemainingTime ?n ?c ?x] =>
          destruct (getRemainingTime n c x) as [[?e|?v] ?w]
      end
    | match goal with
      | |- context [Py.is_ValueError ?e] =>
          is_var e; destruct (Py.is_ValueError e) eqn:?
      end
    | match goal with
      | |- context [App.format_timestamp ?tz ?t] =>
          destruct (App.format_timestamp tz t) as [?e|?d]
      end ];
  run.

Section Echo.
Context {W : Type} (node : Node W) (utcoffset : Z -> Z).

Ltac no_remote_call :=
  cbn [events_of fst snd app In];
  intros ev Hin Hr; repeat destruct Hin as [<-|Hin];
  solve [discriminate Hr | contradiction].

Ltac checksum_call E :=
  cbn [events_of fst snd app In];
  intros ev Hin Hr; repeat destruct Hin as [<-|Hin];
  try discriminate Hr; try contradiction;
  (eexists; split; [first [exact E | reflexivity] | do 2 eexists; reflexivity]).

(** On success each route echoes the text of the request. *)
Lemma routes_echo (a : string) (s : Eff.state (W := W)) :
  echoes_address a
    (fst (App.serve (App.get_subscription_status node utcoffset a) s))
  /\ echoes_address a
       (fst (App.serve (App.get_subscription_expiry node utcoffset a) s))
  /\ echoes_address a (fst (App.serve (App.get_remaining_time node a) s)).
Proof.
  unfold echoes_address.
  destruct (validate_address_cases a) as [Hv|[msg Hv]].
  2:{ destruct (routes_reject node utcoffset a msg s Hv) as (-> & -> & ->).
      repeat split; cbn; discriminate. }
  destruct (EthUtils.to_checksum_address a) as [e|c] eqn:E.
  { destruct (routes_invalid_address node utcoffset a e s Hv E)
      as (-> & -> & ->).
    repeat split; cbn; discriminate. }
  repeat split; open_routes; rewrite Hv; run; repeat route_step @wallet_read_checksum;
    first [discriminate | reflexivity].
Qed.

(** Every remote call of a per-wallet route carries the checksum form. *)
Lemma routes_query_checksum (a : string) (w : W) :
  let queries (r : response * Eff.state (W := W)) :=
    forall ev, In ev (events_of r) -> is_remote ev = true ->
    exists c, EthUtils.to_checksum_address a = inr c
              /\ exists fn ok, ev = RemoteCall fn (Some c) ok in
  queries (App.serve (App.get_subscription_status node utcoffset a) (w, []))
  /\ queries (App.serve (App.get_subscription_expiry node utcoffset a) (w, []))
  /\ queries (App.serve (App.get_remaining_time node a) (w, [])).
Proof.
  cbv zeta.
  destruct (validate_address_cases a) as [Hv|[msg Hv]].
  2:{ destruct (routes_reject node utcoffset a msg (w, []) Hv)
        as (-> & -> & ->).
      repeat split; no_remote_call. }
  destruct (EthUtils.to_checksum_address a) as [e|c] eqn:E.
  { destruct (routes_invalid_address node utcoffset a e (w, []) Hv E)
      as (-> & -> & ->).
    repeat split; no_remote_call. }
  repeat split; open_routes; rewrite Hv; run; repeat route_step @wallet_read_checksum;
    checksum_call E.
Qed.

End Echo.

Section ViewsReturn.
Context {W : Type} (node : Node W) (utcoffset : Z -> Z).

(** The three per-wallet views return a response whatever happens. *)
Lemma wallet_views_raw (a : string) (s : Eff.state (W := W)) :
  (exists r s', App.get_subscription_status node utcoffset a s = (inr r, s'))
  /\ (exists r s', App.get_subscription_expiry node utcoffset a s = (inr r, s'))
  /\ (exists r s', App.get_remaining_time node a s = (inr r, s')).
Proof.
  destruct (validate_address_cases a) as [Hv|[msg Hv]].
  2:{ repeat split; open_routes; rewrite Hv; run;
        do 2 eexists; reflexivity. }
  destruct (EthUtils.to_checksum_address a) as [e|c] eqn:E.
  { repeat split; open_routes; rewrite Hv; run; rewrite wallet_read_run;
      cbv zeta; rewrite E; run; do 2 eexists; reflexivity. }
  repeat split; open_routes; rewrite Hv; run;
    repeat route_step @wallet_read_checksum;
    do 2 eexists; reflexivity.
Qed.

End ViewsReturn.

(** What a view returns is what the client gets. *)
Lemma serve_view {W : Type} (view : Eff.M (W := W) response)
    (s s' : Eff.state (W := W)) (r : response) :
  view s = (inr r, s') -> App.serve view s = (r, s').
Proof. intros H. unfold App.serve. now rewrite H. Qed.

Section EchoOnSuccess.
Context {W : Type} (node : Node W) (utcoffset : Z -> Z).

(** A valid address whose reads are answered gets 200 from each view,
    with the text of the request in the field wallet_address. *)
Lemma views_succeed (a c : string) (w : W) :
  address_shaped a ->
  EthUtils.to_checksum_address a = inr c ->
  (forall active w1 expiry w2 remaining w3 date,
     isActive node c w = (inr active, w1) ->
     getExpiry node c w1 = (inr expiry, w2) ->
     getRemainingTime node c w2 = (inr remaining, w3) ->
     App.format_timestamp utcoffset expiry = inr date ->
     App.get_subscription_status node utcoffset a (w, [])
     = (inr ([ ("wallet_address", JStr a);
               ("is_active", JBool active);
               ("expiry_timestamp", JInt expiry);
               ("expiry_date", JStr date);
               ("remaining_seconds", JInt remaining);
               ("remaining_time", JStr (App.format_duration remaining)) ],
             200),
        (w3, [ ReaderOp "is_subscription_active" (Some a);
               RemoteCall "isActive" (Some c) true;
               ReaderOp "get_subscription_expiry" (Some a);
               RemoteCall "getExpiry" (Some c) true;
               ReaderOp "get_remaining_time" (Some a);
               RemoteCall "getRemainingTime" (Some c) true ])))
  /\ (forall expiry w1 date,
        getExpiry node c w = (inr expiry, w1) ->
        App.format_timestamp utcoffset expiry = inr date ->
        App.get_subscription_expiry node utcoffset a (w, [])
        = (inr ([ ("wallet_address", JStr a);
                  ("expiry_timestamp", JInt expiry);
                  ("expiry_date", JStr date) ], 200),
           (w1, [ ReaderOp "get_subscription_expiry" (Some a);
                  RemoteCall "getExpiry" (Some c) true ])))
  /\ (forall remaining w1,
        getRemainingTime node c w = (inr remaining, w1) ->
        App.get_remaining_time node a (w, [])
        = (inr ([ ("wallet_address", JStr a);
                  ("remaining_seconds", JInt remaining);
                  ("remaining_time", JStr (App.format_duration remaining)) ],
                200),
           (w1, [ ReaderOp "get_remaining_time" (Some a);
                  RemoteCall "getRemainingTime" (Some c) true ]))).
Proof.
  intros Hs Hc.
  pose proof (validate_address_shaped a Hs) as Hv.
  repeat split.
  - intros active w1 expiry w2 remaining w3 date H1 H2 H3 Hd.
    open_routes. rewrite Hv. run.
    rewrite (wallet_read_checksum _ _ _ a c _ Hc). cbn [fst snd].
    rewrite H1. cbn [fst snd].
    rewrite (wallet_read_checksum _ _ _ a c _ Hc). cbn [fst snd].
    rewrite H2. cbn [fst snd].
    rewrite (wallet_read_checksum _ _ _ a c _ Hc). cbn [fst snd].
    rewrite H3. cbn [fst snd]. rewrite Hd. reflexivity.
  - intros expiry w1 date H1 Hd.
    open_routes. rewrite Hv. run.
    rewrite (wallet_read_checksum _ _ _ a c _ Hc). cbn [fst snd].
    rewrite H1. cbn [fst snd]. rewrite Hd. reflexivity.
  - intros remaining w1 H1.
    open_routes. rewrite Hv. run.
    rewrite (wallet_read_checksum _ _ _ a c _ Hc). cbn [fst snd].
    rewrite H1. reflexivity.
Qed.

End EchoOnSuccess.

(** C10: each per-wallet view, given an address that has a checksum form
    and reads that the node answers, returns 200 with a body whose field
    wallet_address is the text of the request, character for character,
    while its remote calls carry the checksum form of that text; and no
    view ever returns a 200 whose field wallet_address is anything
    else. *)
Theorem success_echoes_address_verbatim {W : Type} (node : Node W)
    (utcoffset : Z -> Z) (a : string) (w : W) :
  let echoed (view : (Py.pyexn + response) * Eff.state (W := W)) :=
    forall r, fst view = inr r -> status r = 200 ->
    dict_get (body r) "wallet_address" = Some (JStr a) in
  let queries_checksum (view : (Py.pyexn + response) * Eff.state (W := W)) :=
    forall ev, In ev (snd (snd view)) -> is_remote ev = true ->
    exists c, EthUtils.to_checksum_address a = inr c
              /\ exists fn ok, ev = RemoteCall fn (Some c) ok in
  (forall c active w1 expiry w2 remaining w3 date,
     address_shaped a ->
     EthUtils.to_checksum_address a = inr c ->
     isActive node c w = (inr active, w1) ->
     getExpiry node c w1 = (inr expiry, w2) ->
     getRemainingTime node c w2 = (inr remaining, w3) ->
     App.format_timestamp utcoffset expiry = inr date ->
     App.get_subscription_status node utcoffset a (w, [])
     = (inr ([ ("wallet_address", JStr a);
               ("is_active", JBool active);
               ("expiry_timestamp", JInt expiry);
               ("expiry_date", JStr date);
               ("remaining_seconds", JInt remaining);
               ("remaining_time", JStr (App.format_duration remaining)) ],
             200),
        (w3, [ ReaderOp "is_subscription_active" (Some a);
               RemoteCall "isActive" (Some c) true;
               ReaderOp "get_subscription_expiry" (Some a);
               RemoteCall "getExpiry" (Some c) true;
               ReaderOp "get_remaining_time" (Some a);
               RemoteCall "getRemainingTime" (Some c) true ])))
  /\ (forall c expiry w1 date,
        address_shaped a ->
        EthUtils.to_checksum_address a = inr c ->
        getExpiry node c w = (inr expiry, w1) ->
        App.format_timestamp utcoffset expiry = inr date ->
        App.get_subscription_expiry node utcoffset a (w, [])
        = (inr ([ ("wallet_address", JStr a);
                  ("expiry_timestamp", JInt expiry);
                  ("expiry_date", JStr date) ], 200),
           (w1, [ ReaderOp "get_subscription_expiry" (Some a);
                  RemoteCall "getExpiry" (Some c) true ])))
  /\ (forall c remaining w1,
        address_shaped a ->
        EthUtils.to_checksum_address a = inr c ->
        getRemainingTime node c w = (inr remaining, w1) ->
        App.get_remaining_time node a (w, [])
        = (inr ([ ("wallet_address", JStr a);
                  ("remaining_seconds", JInt remaining);
                  ("remaining_time", JStr (App.format_duration remaining)) ],
                200),
           (w1, [ ReaderOp "get_remaining_time" (Some a);
                  RemoteCall "getRemainingTime" (Some c) true ])))
  /\ echoed (App.get_subscription_status node utcoffset a (w, []))
  /\ echoed (App.get_subscription_expiry node utcoffset a (w, []))
  /\ echoed (App.get_remaining_time node a (w, []))
  /\ queries_checksum (App.get_subscription_status node utcoffset a (w, []))
  /\ queries_checksum (App.get_subscription_expiry node utcoffset a (w, []))
  /\ queries_checksum (App.get_remaining_time node a (w, [])).
Proof.
  cbv zeta.
  destruct (routes_echo node utcoffset a (w, [])) as (H1 & H2 & H3).
  destruct (routes_query_checksum node utcoffset a w) as (Q1 & Q2 & Q3).
  unfold echoes_address, events_of in *.
  split; [|split; [|split]].
  - intros c active w1 expiry w2 remaining w3 date Hs Hc.
    exact (proj1 (views_succeed node utcoffset a c w Hs Hc)
             active w1 expiry w2 remaining w3 date).
  - intros c expiry w1 date Hs Hc.
    exact (proj1 (proj2 (views_succeed node utcoffset a c w Hs Hc))
             expiry w1 date).
  - intros c remaining w1 Hs Hc.
    exact (proj2 (proj2 (views_succeed node utcoffset a c w Hs Hc))
             remaining w1).
  - repeat split.
    + intros r Hr. destruct (App.get_subscription_status _ _ _ _) as [v s'] eqn:E.
      cbn [fst] in Hr. subst v. rewrite (serve_view _ _ _ _ E) in H1. exact H1.
    + intros r Hr. destruct (App.get_subscription_expiry _ _ _ _) as [v s'] eqn:E.
      cbn [fst] in Hr. subst v. rewrite (serve_view _ _ _ _ E) in H2. exact H2.
    + intros r Hr. destruct (App.get_remaining_time _ _ _) as [v s'] eqn:E.
      cbn [fst] in Hr. subst v. rewrite (serve_view _ _ _ _ E) in H3. exact H3.
    + intros ev. destruct (wallet_views_raw node utcoffset a (w, []))
        as ((r & s' & E) & _ & _).
      rewrite (serve_view _ _ _ _ E) in Q1. rewrite E. exact (Q1 ev).
    + intros ev. destruct (wallet_views_raw node utcoffset a (w, []))
        as (_ & (r & s' & E) & _).
      rewrite (serve_view _ _ _ _ E) in Q2. rewrite E. exact (Q2 ev).
    + intros ev. destruct (wallet_views_raw node utcoffset a (w, []))
        as (_ & _ & (r & s' & E)).
      rewrite (serve_view _ _ _ _ E) in Q3. rewrite E. exact (Q3 ev).
Qed.

Lemma success_echoes_address_verbatim_witness :
  App.get_subscription_status sample_node (fun _ => 0) lower_address (0%nat, [])
  = (inr ([ ("wallet_address", JStr lower_address);
            ("is_active", JBool true);
            ("expiry_timestamp", JInt 1737216000);
            ("expiry_date", JStr "2025-01-18 16:00:00 UTC");
            ("remaining_seconds", JInt 90000);
            ("remaining_time", JStr (App.format_duration 90000)) ], 200),
     (3%nat, [ ReaderOp "is_subscription_active" (Some lower_address);
               RemoteCall "isActive" (Some checksum_of_address) true;
               ReaderOp "get_subscription_expiry" (Some lower_address);
               RemoteCall "getExpiry" (Some checksum_of_address) true;
               ReaderOp "get_remaining_time" (Some lower_address);
               RemoteCall "getRemainingTime" (Some checksum_of_address) true ]))
  /\ App.get_subscription_expiry sample_node (fun _ => 0) lower_address
       (0%nat, [])
     = (inr ([ ("wallet_address", JStr lower_address);
               ("expiry_timestamp", JInt 1737216000);
               ("expiry_date", JStr "2025-01-18 16:00:00 UTC") ], 200),
        (1%nat, [ ReaderOp "get_subscription_expiry" (Some lower_address);
                  RemoteCall "getExpiry" (Some checksum_of_address) true ]))
  /\ App.get_remaining_time sample_node lower_address (0%nat, [])
     = (inr ([ ("wallet_address", JStr lower_address);
               ("remaining_seconds", JInt 90000);
               ("remaining_time", JStr (App.format_duration 90000)) ], 200),
        (1%nat, [ ReaderOp "get_remaining_time" (Some lower_address);
                  RemoteCall "getRemainingTime" (Some checksum_of_address)
                    true ]))
  /\ lower_address <> checksum_of_address.
Proof.
  assert (Hs : address_shaped lower_address) by (split; reflexivity).
  assert (Hc : EthUtils.to_checksum_address lower_address
               = inr checksum_of_address) by (vm_compute; reflexivity).
  pose proof (success_echoes_address_verbatim sample_node (fun _ => 0)
                lower_address 0%nat) as T.
  cbv zeta in T. destruct T as (T1 & T2 & T3 & _).
  split; [|split; [|split]].
  - apply (T1 checksum_of_address true 1%nat 1737216000 2%nat 90000 3%nat
             "2025-01-18 16:00:00 UTC" Hs Hc);
      first [reflexivity | vm_compute; reflexivity].
  - apply (T2 checksum_of_address 1737216000 1%nat
             "2025-01-18 16:00:00 UTC" Hs Hc);
      first [reflexivity | vm_compute; reflexivity].
  - apply (T3 checksum_of_address 90000 1%nat Hs Hc). reflexivity.
  - vm_compute. discriminate.
Defined.

Lemma non_hex_address_rejected_by_reader_witness :
  let a := "0xZZaeb6053f3e94c9b9a09f33669435e7ef1beaed" in
  address_shaped a /\ has_non_hex_digit a = true
  /\ App.serve (App.get_remaining_time sample_node a) (0%nat, [])
     = (([("error", JStr ("Invalid wallet address: " ++ a))], 400),
        (0%nat, [ReaderOp "get_remaining_time" (Some a)])).
Proof.
  cbv zeta.
  assert (Hs : address_shaped "0xZZaeb6053f3e94c9b9a09f33669435e7ef1beaed")
    by (split; reflexivity).
  assert (Hx : has_non_hex_digit "0xZZaeb6053f3e94c9b9a09f33669435e7ef1beaed"
               = true) by reflexivity.
  split; [exact Hs|]. split; [exact Hx|].
  apply (proj2 (proj2 (proj2 (proj2 (proj2
           (non_hex_address_rejected_by_reader sample_node (fun _ => 0)
              "0xZZaeb6053f3e94c9b9a09f33669435e7ef1beaed" (0%nat, [])
              Hs Hx)))))).
Defined.

(** ** Two spellings of one address *)

Section Spellings.
Context {W : Type} (node : Node W) (utcoffset : Z -> Z).

Ltac agree :=
  unfold agree_up_to_echo; run;
  repeat split;
  first [ reflexivity
        | discriminate
        | rewrite !filter_app; reflexivity
        | intros _; reflexivity ].

(** C1, as the code has it: two address-shaped spellings that differ in
    letter case only get, from each per-wallet route and from the same
    state of the world, the same status code, and the same remote calls
    are issued for them (with the one checksum form); the body of a 200
    is the same apart from the field wallet_address, which echoes each
    spelling as it was given, and the body of a 500 is the same. *)
Theorem case_spellings_agree_up_to_echo (a b : string)
    (s : Eff.state (W := W)) :
  address_shaped a -> address_shaped b -> same_up_to_case a b ->
  agree_up_to_echo
    (App.serve (App.get_subscription_status node utcoffset a) s)
    (App.serve (App.get_subscription_status node utcoffset b) s)
  /\ agree_up_to_echo
       (App.serve (App.get_subscription_expiry node utcoffset a) s)
       (App.serve (App.get_subscription_expiry node utcoffset b) s)
  /\ agree_up_to_echo
       (App.serve (App.get_remaining_time node a) s)
       (App.serve (App.get_remaining_time node b) s).
Proof.
  intros Ha Hb Hcase.
  pose proof (validate_address_shaped a Ha) as Hva.
  pose proof (validate_address_shaped b Hb) as Hvb.
  destruct (to_checksum_address_case a b Ha Hb Hcase)
    as [(c & Ea & Eb)|(ea & eb & Ea & Eb)].
  - repeat apply conj; open_routes; rewrite Hva, Hvb; run;
      repeat route_step @wallet_read_checksum; agree.
  - destruct (routes_invalid_address node utcoffset a ea s Hva Ea)
      as (-> & -> & ->).
    destruct (routes_invalid_address node utcoffset b eb s Hvb Eb)
      as (-> & -> & ->).
    repeat apply conj; agree.
Qed.

End Spellings.

Lemma case_spellings_agree_up_to_echo_witness :
  address_shaped lower_address /\ address_shaped upper_address
  /\ same_up_to_case lower_address upper_address
  /\ agree_up_to_echo
       (App.serve (App.get_remaining_time sample_node lower_address) (0%nat, []))
       (App.serve (App.get_remaining_time sample_node upper_address) (0%nat, [])).
Proof.
  assert (Ha : address_shaped lower_address) by (split; reflexivity).
  assert (Hb : address_shaped upper_address) by (split; reflexivity).
  assert (Hc : same_up_to_case lower_address upper_address) by reflexivity.
  split; [exact Ha|]. split; [exact Hb|]. split; [exact Hc|].
  apply (proj2 (proj2 (case_spellings_agree_up_to_echo sample_node
                         (fun _ => 0) lower_address upper_address
                         (0%nat, []) Ha Hb Hc))).
Defined.

(** C1 as stated fails: the two spellings of one address get different
    bodies from each route, since the body echoes the spelling. *)
Lemma case_spellings_counterexample :
  address_shaped lower_address /\ address_shaped upper_address
  /\ same_up_to_case lower_address upper_address
  /\ fst (App.serve
            (App.get_subscription_status sample_node (fun _ => 0) lower_address)
            (0%nat, []))
     <> fst (App.serve
               (App.get_subscription_status sample_node (fun _ => 0)
                  upper_address)
               (0%nat, []))
  /\ fst (App.serve
            (App.get_subscription_expiry sample_node (fun _ => 0) lower_address)
            (0%nat, []))
     <> fst (App.serve
               (App.get_subscription_expiry sample_node (fun _ => 0)
                  upper_address)
               (0%nat, []))
  /\ fst (App.serve (App.get_remaining_time sample_node lower_address)
            (0%nat, []))
     <> fst (App.serve (App.get_remaining_time sample_node upper_address)
               (0%nat, [])).
Proof.
  split; [split; reflexivity|]. split; [split; reflexivity|].
  split; [reflexivity|].
  repeat split; vm_compute; discriminate.
Qed.

(** ** The statistics route *)

Ltac open_stats :=
  unfold BlockchainService.get_contract_stats, BlockchainService.read_eth,
    Eff.try_except, Eff.bind, Eff.remote_call, Eff.emit, Eff.lift, Eff.ret,
    Eff.raise;
  cbn [fst snd app].

Ltac stats_step :=
  match goal with
  | |- context [SUBSCRIPTION_PRICE ?n ?x] =>
      destruct (SUBSCRIPTION_PRICE n x) as [[?e|?v] ?w]
  | |- context [SUBSCRIPTION_DURATION ?n ?x] =>
      destruct (SUBSCRIPTION_DURATION n x) as [[?e|?v] ?w]
  | |- context [totalSubscribers ?n ?x] =>
      destruct (totalSubscribers n x) as [[?e|?v] ?w]
  | |- context [totalRevenue ?n ?x] =>
      destruct (totalRevenue n x) as [[?e|?v] ?w]
  | |- context [getBalance ?n ?x] =>
      destruct (getBalance n x) as [[?e|?v] ?w]
  | |- context [EthUtils.from_wei_ether ?x] =>
      destruct (EthUtils.from_wei_ether x) as [?e|?o]
  | |- context [Py.truediv ?x ?d] =>
      destruct (Py.truediv x d) as [?e|?q]
  end;
  cbn [fst snd app Eff.is_ok].

Section Stats.
Context {W : Type} (node : Node W) (contract_address : string).

(** The view answers what the reader returns, or the generic 500 of its
    own handler; it does not raise. *)
Lemma stats_view_run (s : Eff.state (W := W)) :
  App.get_contract_stats node contract_address s =
  match BlockchainService.get_contract_stats node contract_address s with
  | (inl e, s') =>
      (inr ([("error", JStr "Internal server error")], 500),
       (fst s', (snd s' ++ [Printed "ERROR in get_contract_stats: " e])%list))
  | (inr stats, s') => (inr (stats, 200), s')
  end.
Proof.
  unfold App.get_contract_stats, Eff.try_except.
  unfold Eff.bind at 1.
  destruct (BlockchainService.get_contract_stats node contract_address s)
    as [[e|stats] s']; reflexivity.
Qed.

(** When the reader returns, none of its remote calls has failed. *)
Lemma stats_reader_calls (w : W) :
  match BlockchainService.get_contract_stats node contract_address (w, []) with
  | (inl _, _) => True
  | (inr _, s') => forallb (fun ev => negb (failed_remote ev)) (snd s') = true
  end.
Proof.
  open_stats. repeat stats_step; first [exact I | reflexivity].
Qed.

End Stats.

(** C8: when the reader fails during GET /stats, and in particular when
    any of the remote calls of the request fails, the view itself returns
    (it does not raise) the status 500 with the body
    {"error": "Internal server error"} and nothing else: no text of the
    exception is in the response, which is also what the client gets. *)
Theorem stats_failure_is_generic_500 {W : Type} (node : Node W)
    (contract_address : string) (w : W) :
  let view := App.get_contract_stats node contract_address (w, []) in
  (exists e,
     fst (BlockchainService.get_contract_stats node contract_address (w, []))
     = inl e)
  \/ (exists ev, In ev (snd (snd view)) /\ failed_remote ev = true) ->
  fst view = inr ([("error", JStr "Internal server error")], 500)
  /\ fst (App.serve (App.get_contract_stats node contract_address) (w, []))
     = ([("error", JStr "Internal server error")], 500).
Proof.
  cbv zeta. unfold App.serve. rewrite stats_view_run.
  pose proof (stats_reader_calls node contract_address w) as Hcalls.
  destruct (BlockchainService.get_contract_stats node contract_address (w, []))
    as [[e|stats] s'].
  - intros _. split; reflexivity.
  - intros [[e He]|[ev [Hin Hf]]].
    + discriminate He.
    + cbn [fst snd] in Hin.
      rewrite forallb_forall in Hcalls. specialize (Hcalls ev Hin).
      rewrite Hf in Hcalls. discriminate Hcalls.
Qed.

Lemma stats_failure_is_generic_500_witness :
  let view := App.get_contract_stats offline_node "0x" (0%nat, []) in
  In (RemoteCall "SUBSCRIPTION_PRICE" None false) (snd (snd view))
  /\ fst view = inr ([("error", JStr "Internal server error")], 500).
Proof.
  cbv zeta. split; [vm_compute; tauto|].
  apply (stats_failure_is_generic_500 offline_node "0x" 0%nat).
  right. exists (RemoteCall "SUBSCRIPTION_PRICE" None false).
  split; [vm_compute; tauto | reflexivity].
Defined.

(** * Further properties of the code *)

(** ** The checksum form is canonical *)

Section KeccakLength.

Lemma chi_length (st : list Z) : List.length (Keccak.chi st) = 25%nat.
Proof. unfold Keccak.chi. rewrite length_map. reflexivity. Qed.

Lemma iota_length (rc : Z) (st : list Z) :
  List.length (Keccak.iota rc st) = List.length st.
Proof. destruct st; reflexivity. Qed.

Lemma round_length (st : list Z) (rc : Z) :
  List.length (Keccak.round st rc) = 25%nat.
Proof. unfold Keccak.round. rewrite iota_length. apply chi_length. Qed.

Lemma keccak_f_length (st : list Z) :
  List.length (Keccak.keccak_f st) = 25%nat.
Proof.
  unfold Keccak.keccak_f, Keccak.round_constants. cbn [fold_left].
  apply round_length.
Qed.

Lemma absorb_all_length (blocks : list (list Z)) (st : list Z) :
  List.length st = 25%nat ->
  List.length (fold_left Keccak.absorb blocks st) = 25%nat.
Proof.
  revert st. induction blocks as [|b blocks IH]; intros st H; cbn [fold_left].
  - assumption.
  - apply IH. unfold Keccak.absorb. apply keccak_f_length.
Qed.

Lemma bytes_of_lane_length (n : nat) (l : Z) :
  List.length (Keccak.bytes_of_lane n l) = n.
Proof.
  revert l. induction n as [|n IH]; intros l; cbn [Keccak.bytes_of_lane Datatypes.length];
    [reflexivity | now rewrite IH].
Qed.

Lemma lanes_bytes_length (st : list Z) :
  List.length (flat_map (Keccak.bytes_of_lane 8) st)
  = (8 * List.length st)%nat.
Proof.
  induction st as [|l st IH]; [reflexivity|].
  cbn [flat_map]. rewrite length_app, bytes_of_lane_length, IH.
  cbn [Datatypes.length]. lia.
Qed.

Lemma keccak256_length (msg : list Z) :
  List.length (Keccak.keccak256 msg) = 32%nat.
Proof.
  unfold Keccak.keccak256. rewrite length_firstn, lanes_bytes_length.
  rewrite absorb_all_length by apply repeat_length. reflexivity.
Qed.

Lemma hex_of_bytes_length (bs : list Z) :
  String.length (Keccak.hex_of_bytes bs) = (2 * List.length bs)%nat.
Proof.
  unfold Keccak.hex_of_bytes.
  induction bs as [|b bs IH]; [reflexivity|].
  cbn [flat_map app string_of_list_ascii String.length Datatypes.length].
  rewrite IH. lia.
Qed.

(** The hash is printed with 64 hex digits. *)
Lemma keccak256_hex_length (s : string) :
  String.length (Keccak.keccak256_hex s) = 64%nat.
Proof.
  unfold Keccak.keccak256_hex.
  now rewrite hex_of_bytes_length, keccak256_length.
Qed.

End KeccakLength.

Section Canonical.

Lemma lower_upper_ascii (c : ascii) :
  Py.lower_ascii (Py.upper_ascii c) = Py.lower_ascii c.
Proof. destruct c as [[] [] [] [] [] [] [] []]; reflexivity. Qed.

Lemma lower_lower_ascii (c : ascii) :
  Py.lower_ascii (Py.lower_ascii c) = Py.lower_ascii c.
Proof. destruct c as [[] [] [] [] [] [] [] []]; reflexivity. Qed.

Lemma lower_ascii_not_X (c : ascii) : Py.lower_ascii c <> "X"%char.
Proof. destruct c as [[] [] [] [] [] [] [] []]; discriminate. Qed.

Lemma is_hex_char_upper (c : ascii) :
  EthUtils.is_hex_char (Py.upper_ascii c) = EthUtils.is_hex_char c.
Proof. destruct c as [[] [] [] [] [] [] [] []]; reflexivity. Qed.

Lemma lower_idempotent (s : string) : Py.lower (Py.lower s) = Py.lower s.
Proof.
  unfold Py.lower. induction s as [|c s IH]; cbn [Py.map_string];
    [reflexivity | now rewrite IH, lower_lower_ascii].
Qed.

Lemma lower_length (s : string) : String.length (Py.lower s) = String.length s.
Proof.
  unfold Py.lower. induction s as [|c s IH]; cbn [Py.map_string String.length];
    [reflexivity | now rewrite IH].
Qed.

Lemma checksum_digits_facts (d h : string) :
  (String.length d <= String.length h)%nat ->
  Py.lower (EthUtils.checksum_digits d h) = Py.lower d
  /\ String.length (EthUtils.checksum_digits d h) = String.length d
  /\ Py.string_forallb EthUtils.is_hex_char (EthUtils.checksum_digits d h)
     = Py.string_forallb EthUtils.is_hex_char d.
Proof.
  revert h. unfold Py.lower.
  induction d as [|a d IH]; intros h Hl; [now destruct h|].
  destruct h as [|x h]; [cbn in Hl; lia|].
  cbn [String.length] in Hl.
  destruct (IH h ltac:(lia)) as (H1 & H2 & H3).
  cbn [EthUtils.checksum_digits Py.map_string String.length Py.string_forallb].
  rewrite H1, H2, H3.
  destruct (7 <? EthUtils.hex_value x);
    now rewrite ?lower_upper_ascii, ?is_hex_char_upper.
Qed.

Lemma startswith_two (a : string) (c1 c2 : ascii) :
  Py.startswith a (String c1 (String c2 "")) = true ->
  exists rest, a = String c1 (String c2 rest).
Proof.
  unfold Py.startswith. intros H.
  apply String.prefix_correct in H.
  destruct a as [|x1 [|x2 rest]]; cbn in H; try discriminate.
  destruct rest; injection H as -> ->; eexists; reflexivity.
Qed.

Lemma is_0x_prefixed_0x (rest : string) :
  EthUtils.is_0x_prefixed (String "0" (String "x" rest)) = true.
Proof.
  unfold EthUtils.is_0x_prefixed, Py.startswith.
  apply orb_true_iff. left. apply String.prefix_correct.
  destruct rest; reflexivity.
Qed.

(** A normalized address is 0x and forty lower-case hex digits. *)
Lemma to_normalized_address_shape (value n : string) :
  EthUtils.to_normalized_address value = inr n ->
  exists d, n = String "0" (String "x" d)
            /\ Py.lower d = d
            /\ String.length d = 40%nat
            /\ Py.string_forallb EthUtils.is_hex_char d = true.
Proof.
  unfold EthUtils.to_normalized_address.
  destruct (_ && _)%bool; [discriminate|].
  destruct (EthUtils.is_hex_address _) eqn:Hhex; [|discriminate].
  intros [= <-].
  assert (Hn : exists d, Py.lower (EthUtils.add_0x_prefix (Py.lower value))
                         = String "0" (String "x" d) /\ Py.lower d = d).
  { unfold EthUtils.add_0x_prefix.
    destruct (EthUtils.is_0x_prefixed (Py.lower value)) eqn:Hp.
    - unfold EthUtils.is_0x_prefixed in Hp. apply orb_true_iff in Hp.
      destruct Hp as [Hp|Hp]; apply startswith_two in Hp;
        destruct Hp as [rest Hr].
      + rewrite lower_idempotent, Hr.
        destruct value as [|v1 [|v2 vr]]; try discriminate Hr.
        cbn [Py.lower Py.map_string] in Hr. injection Hr as _ _ Hr.
        exists rest. split; [reflexivity|].
        rewrite <- Hr. apply lower_idempotent.
      + exfalso.
        destruct value as [|v1 [|v2 vr]]; try discriminate Hr.
        cbn [Py.lower Py.map_string] in Hr. injection Hr as _ Hx _.
        exact (lower_ascii_not_X _ Hx).
    - exists (Py.lower value). split.
      + change (Py.lower ("0x" ++ Py.lower value))
          with (String "0" (String "x" (Py.lower (Py.lower value)))).
        now rewrite lower_idempotent.
      + apply lower_idempotent. }
  destruct Hn as (d & Hd & Hlow).
  exists d. split; [assumption|]. split; [assumption|].
  rewrite Hd in Hhex. unfold EthUtils.is_hex_address, EthUtils.is_hexstr in Hhex.
  rewrite remove_0x_prefix_0x in Hhex.
  apply andb_true_iff in Hhex. destruct Hhex as [H1 H2].
  apply Nat.eqb_eq in H2. now split.
Qed.

(** The checksum form of any text is a text of 42 characters with the 0x
    prefix, and it is its own checksum form. *)
Lemma to_checksum_address_canonical (value c : string) :
  EthUtils.to_checksum_address value = inr c ->
  address_shaped c /\ EthUtils.to_checksum_address c = inr c.
Proof.
  unfold EthUtils.to_checksum_address at 1.
  destruct (EthUtils.to_normalized_address value) as [e|n] eqn:En;
    [discriminate|].
  destruct (to_normalized_address_shape _ _ En) as (d & -> & Hlow & Hlen & Hhex).
  rewrite remove_0x_prefix_0x.
  assert (Hle : (String.length d <= String.length (Keccak.keccak256_hex d))%nat)
    by (rewrite keccak256_hex_length; lia).
  destruct (checksum_digits_facts d _ Hle) as (C1 & C2 & C3).
  set (cd := EthUtils.checksum_digits d (Keccak.keccak256_hex d)) in *.
  change ("0x" ++ cd) with (String "0" (String "x" cd)).
  intros [= <-].
  split.
  - split.
    + unfold Py.startswith. apply String.prefix_correct.
      destruct cd; reflexivity.
    + unfold Py.len. cbn [String.length]. rewrite C2, Hlen. reflexivity.
  - unfold EthUtils.to_checksum_address, EthUtils.to_normalized_address,
      EthUtils.is_hexstr.
    rewrite remove_0x_prefix_0x, C3, Hhex.
    rewrite andb_false_r.
    change (Py.lower (String "0" (String "x" cd)))
      with (String "0" (String "x" (Py.lower cd))).
    rewrite C1, Hlow.
    unfold EthUtils.add_0x_prefix. rewrite is_0x_prefixed_0x.
    change (Py.lower (String "0" (String "x" d)))
      with (String "0" (String "x" (Py.lower d))).
    rewrite Hlow.
    unfold EthUtils.is_hex_address, EthUtils.is_hexstr.
    rewrite remove_0x_prefix_0x, Hhex, Hlen.
    cbn [andb Nat.eqb]. rewrite remove_0x_prefix_0x. reflexivity.
Qed.

End Canonical.

(** X1: the address of every remote call of a per-wallet route is
    canonical: 42 characters with the 0x prefix, accepted by the
    syntactic check of the gateway, and its own checksum form. *)
Theorem remote_queries_are_canonical {W : Type} (node : Node W)
    (utcoffset : Z -> Z) (a : string) (w : W) :
  let canonical (r : response * Eff.state (W := W)) :=
    forall ev, In ev (events_of r) -> is_remote ev = true ->
    exists c fn ok,
      ev = RemoteCall fn (Some c) ok
      /\ address_shaped c
      /\ App.validate_address c = (true, None)
      /\ EthUtils.to_checksum_address c = inr c in
  canonical (App.serve (App.get_subscription_status node utcoffset a) (w, []))
  /\ canonical (App.serve (App.get_subscription_expiry node utcoffset a) (w, []))
  /\ canonical (App.serve (App.get_remaining_time node a) (w, [])).
Proof.
  cbv zeta.
  destruct (routes_query_checksum node utcoffset a w) as (Q1 & Q2 & Q3).
  repeat split; intros ev Hin Hr;
    [ destruct (Q1 ev Hin Hr) as (c & Hc & fn & ok & ->)
    | destruct (Q2 ev Hin Hr) as (c & Hc & fn & ok & ->)
    | destruct (Q3 ev Hin Hr) as (c & Hc & fn & ok & ->) ];
    destruct (to_checksum_address_canonical a c Hc) as [Hs Hfix];
    exists c, fn, ok; repeat split;
    first [ exact (proj1 Hs) | exact (proj2 Hs) | exact Hfix
          | exact (validate_address_shaped c Hs) ].
Qed.

Lemma remote_queries_are_canonical_witness :
  exists c fn ok,
    RemoteCall "getRemainingTime" (Some checksum_of_address) true
    = RemoteCall fn (Some c) ok
    /\ address_shaped c
    /\ App.validate_address c = (true, None)
    /\ EthUtils.to_checksum_address c = inr c.
Proof.
  apply (proj2 (proj2 (remote_queries_are_canonical sample_node (fun _ => 0)
                         upper_address 0%nat))).
  - vm_compute. tauto.
  - reflexivity.
Defined.

(** X2: among the texts that have a checksum form, the syntactic check of
    the gateway accepts exactly those that start with a lower-case 0x: an
    address without the prefix, or with the prefix 0X, is refused by the
    routes although the reader could normalize it. *)
Theorem gateway_accepts_lowercase_prefix_only (a c : string) :
  EthUtils.to_checksum_address a = inr c ->
  (App.validate_address a = (true, None) <-> Py.startswith a "0x" = true)
  /\ (Py.startswith a "0x" = false ->
      App.validate_address a = (false, Some "Address must start with 0x")).
Proof.
  intros Hc.
  assert (Hne : a <> "").
  { intros ->. vm_compute in Hc. discriminate Hc. }
  split.
  - split.
    + intros Hv.
      assert (Hs : address_shaped a)
        by (apply validate_address_accepts; now rewrite Hv).
      exact (proj1 Hs).
    + intros Hp. apply validate_address_shaped. split; [assumption|].
      destruct (startswith_0x a Hp) as [rest ->].
      unfold EthUtils.to_checksum_address in Hc.
      destruct (EthUtils.to_normalized_address _) as [e|n] eqn:En;
        [discriminate|].
      unfold EthUtils.to_normalized_address in En.
      destruct (_ && _)%bool; [discriminate|].
      destruct (EthUtils.is_hex_address _) eqn:Hhex; [|discriminate].
      change (Py.lower (String "0" (String "x" rest)))
        with (String "0" (String "x" (Py.lower rest))) in Hhex.
      unfold EthUtils.add_0x_prefix in Hhex.
      rewrite is_0x_prefixed_0x in Hhex.
      change (Py.lower (String "0" (String "x" (Py.lower rest))))
        with (String "0" (String "x" (Py.lower (Py.lower rest)))) in Hhex.
      unfold EthUtils.is_hex_address in Hhex.
      rewrite remove_0x_prefix_0x in Hhex.
      apply andb_true_iff in Hhex. destruct Hhex as [_ Hl].
      apply Nat.eqb_eq in Hl. rewrite !lower_length in Hl.
      unfold Py.len. cbn [String.length]. rewrite Hl. reflexivity.
  - intros Hp. unfold App.validate_address.
    destruct (String.eqb_spec a "") as [E|_]; [contradiction|].
    now rewrite Hp.
Qed.

Lemma gateway_accepts_lowercase_prefix_only_witness :
  EthUtils.to_checksum_address "0X5AAEB6053F3E94C9B9A09F33669435E7EF1BEAED"
  = inr checksum_of_address
  /\ App.validate_address "0X5AAEB6053F3E94C9B9A09F33669435E7EF1BEAED"
     = (false, Some "Address must start with 0x").
Proof.
  assert (Hc : EthUtils.to_checksum_address
                 "0X5AAEB6053F3E94C9B9A09F33669435E7EF1BEAED"
               = inr checksum_of_address) by (vm_compute; reflexivity).
  split; [exact Hc|].
  apply (proj2 (gateway_accepts_lowercase_prefix_only
                  "0X5AAEB6053F3E94C9B9A09F33669435E7EF1BEAED"
                  checksum_of_address Hc)).
  reflexivity.
Defined.

(** ** What the routes answer *)

Section Answers.
Context {W : Type} (node : Node W) (utcoffset : Z -> Z).

Ltac enter_invalid Hv E :=
  open_routes; rewrite Hv; run; rewrite wallet_read_run; cbv zeta;
  rewrite E; run.

(** The three per-wallet views return a response whatever happens. *)
Lemma wallet_views_answer (a : string) (s : Eff.state (W := W)) :
  let answers (v : (Py.pyexn + response) * Eff.state (W := W)) :=
    exists r, fst v = inr r /\ In (status r) [200; 400; 500] in
  answers (App.get_subscription_status node utcoffset a s)
  /\ answers (App.get_subscription_expiry node utcoffset a s)
  /\ answers (App.get_remaining_time node a s).
Proof.
  cbv zeta.
  destruct (validate_address_cases a) as [Hv|[msg Hv]].
  2:{ repeat split; open_routes; rewrite Hv; run;
        (eexists; split; [reflexivity | cbn; tauto]). }
  destruct (EthUtils.to_checksum_address a) as [e|c] eqn:E.
  { repeat split; enter_invalid Hv E;
      (eexists; split; [reflexivity | cbn; tauto]). }
  repeat split; open_routes; rewrite Hv; run;
    repeat route_step @wallet_read_checksum;
    (eexists; split; [reflexivity | cbn; tauto]).
Qed.


(** X5: a per-wallet request that is answered with 200 has made exactly
    the remote calls of its route, each once and all with the checksum
    form: isActive, getExpiry and getRemainingTime in this order for
    /status, getExpiry alone for /expiry, getRemainingTime alone for
    /remaining. *)
Theorem success_makes_exact_calls (a : string) (w : W) :
  (status (fst (App.serve (App.get_subscription_status node utcoffset a)
                  (w, []))) = 200 ->
   exists c, EthUtils.to_checksum_address a = inr c
     /\ events_of (App.serve (App.get_subscription_status node utcoffset a)
                     (w, []))
        = [ ReaderOp "is_subscription_active" (Some a);
            RemoteCall "isActive" (Some c) true;
            ReaderOp "get_subscription_expiry" (Some a);
            RemoteCall "getExpiry" (Some c) true;
            ReaderOp "get_remaining_time" (Some a);
            RemoteCall "getRemainingTime" (Some c) true ])
  /\ (status (fst (App.serve (App.get_subscription_expiry node utcoffset a)
                     (w, []))) = 200 ->
      exists c, EthUtils.to_checksum_address a = inr c
        /\ events_of (App.serve (App.get_subscription_expiry node utcoffset a)
                        (w, []))
           = [ ReaderOp "get_subscription_expiry" (Some a);
               RemoteCall "getExpiry" (Some c) true ])
  /\ (status (fst (App.serve (App.get_remaining_time node a) (w, []))) = 200 ->
      exists c, EthUtils.to_checksum_address a = inr c
        /\ events_of (App.serve (App.get_remaining_time node a) (w, []))
           = [ ReaderOp "get_remaining_time" (Some a);
               RemoteCall "getRemainingTime" (Some c) true ]).
Proof.
  destruct (validate_address_cases a) as [Hv|[msg Hv]].
  2:{ destruct (routes_reject node utcoffset a msg (w, []) Hv)
        as (-> & -> & ->).
      repeat split; cbn; discriminate. }
  destruct (EthUtils.to_checksum_address a) as [e|c] eqn:E.
  { destruct (routes_invalid_address node utcoffset a e (w, []) Hv E)
      as (-> & -> & ->).
    repeat split; cbn; discriminate. }
  repeat split; open_routes; rewrite Hv; run;
    repeat route_step @wallet_read_checksum;
    first [ discriminate
          | intros _; eexists; split; reflexivity ].
Qed.

End Answers.

(** X3: the four views never raise: each returns a response, with status
    200, 400 or 500 for a per-wallet route and 200 or 500 for the
    statistics, so that the handler of uncaught errors is never needed
    for them. *)
Theorem views_never_raise {W : Type} (node : Node W) (utcoffset : Z -> Z)
    (contract_address a : string) (s : Eff.state (W := W)) :
  let answers (codes : list Z)
              (v : (Py.pyexn + response) * Eff.state (W := W)) :=
    exists r, fst v = inr r /\ In (status r) codes in
  answers [200; 400; 500] (App.get_subscription_status node utcoffset a s)
  /\ answers [200; 400; 500] (App.get_subscription_expiry node utcoffset a s)
  /\ answers [200; 400; 500] (App.get_remaining_time node a s)
  /\ answers [200; 500] (App.get_contract_stats node contract_address s).
Proof.
  cbv zeta.
  destruct (wallet_views_answer node utcoffset a s) as (H1 & H2 & H3).
  repeat split; try assumption.
  unfold App.get_contract_stats, Eff.try_except. unfold Eff.bind at 1.
  destruct (BlockchainService.get_contract_stats node contract_address s)
    as [[e|stats] s']; eexists; (split; [reflexivity | cbn; tauto]).
Qed.


Lemma success_makes_exact_calls_witness :
  exists c, EthUtils.to_checksum_address upper_address = inr c
    /\ events_of (App.serve (App.get_remaining_time sample_node upper_address)
                    (0%nat, []))
       = [ ReaderOp "get_remaining_time" (Some upper_address);
           RemoteCall "getRemainingTime" (Some c) true ].
Proof.
  apply (proj2 (proj2 (success_makes_exact_calls sample_node (fun _ => 0)
                         upper_address 0%nat))).
  vm_compute. reflexivity.
Defined.

(** The conversion at the ends of its range, as the interpreter on Linux
    has it: the year of the message is the C [int] that holds it, the
    first day of the year 1 fails on the look one day back, a year below
    1000 is printed without zeros in front. *)
Example format_timestamp_boundaries :
  App.format_timestamp (fun _ => 0) 253402300799
  = inr "9999-12-31 23:59:59 UTC"
  /\ App.format_timestamp (fun _ => 0) 67767976233532799
     = inl (Py.ValueError "year 2147483647 is out of range" None)
  /\ App.format_timestamp (fun _ => 0) 67767976233532800
     = inl (Py.ValueError "year -2147483648 is out of range" None)
  /\ App.format_timestamp (fun _ => 0) 67768036191676799
     = inl (Py.ValueError "year -2147481749 is out of range" None)
  /\ App.format_timestamp (fun _ => 0) 67768036191676800
     = inl (Py.PyExn "OSError" false
              "[Errno 75] Value too large for defined data type" None)
  /\ App.format_timestamp (fun _ => 0) (2 ^ 63)
     = inl (Py.OverflowError "timestamp out of range for platform time_t")
  /\ App.format_timestamp (fun _ => 0) (-62135596800)
     = inl (Py.ValueError "year 0 is out of range" None)
  /\ App.format_timestamp (fun _ => 0) (-62135510400)
     = inr "1-01-02 00:00:00 UTC"
  /\ App.format_timestamp (fun _ => 0) (-30610224001)
     = inr "999-12-31 23:59:59 UTC".
Proof. repeat split; vm_compute; reflexivity. Qed.

(** X6: an expiry that [format_timestamp] cannot print decides the answer
    of /expiry for a valid address: a [ValueError] of the conversion (a
    year past 9999, named in the message as the C [int] that the
    interpreter holds) is answered as 400 with the text of that error,
    any other error as the generic 500. *)
Theorem expiry_date_error_answers {W : Type} (node : Node W)
    (utcoffset : Z -> Z) (a c : string) (w w' : W) (t : Z) (e : Py.pyexn) :
  address_shaped a ->
  EthUtils.to_checksum_address a = inr c ->
  getExpiry node c w = (inr t, w') ->
  App.format_timestamp utcoffset t = inl e ->
  fst (App.get_subscription_expiry node utcoffset a (w, []))
  = inr (if Py.is_ValueError e then ([("error", JStr (Py.str e))], 400)
         else ([("error", JStr "Internal server error")], 500)).
Proof.
  intros Hs Hc Hcall Hfmt.
  pose proof (validate_address_shaped a Hs) as Hv.
  open_routes. rewrite Hv. run.
  rewrite (wallet_read_checksum _ _ _ a c _ Hc). cbn [fst snd].
  rewrite Hcall. cbn [fst snd]. rewrite Hfmt.
  destruct (Py.is_ValueError e); reflexivity.
Qed.

Lemma expiry_date_error_answers_witness :
  fst (App.get_subscription_expiry far_future_node (fun _ => 0) lower_address
         (0%nat, []))
  = inr ([("error", JStr "year 10000 is out of range")], 400)
  /\ fst (App.get_subscription_expiry (expiring_node 67767976233532800)
            (fun _ => 0) lower_address (0%nat, []))
     = inr ([("error", JStr "year -2147483648 is out of range")], 400)
  /\ fst (App.get_subscription_expiry (expiring_node (2 ^ 63))
            (fun _ => 0) lower_address (0%nat, []))
     = inr ([("error", JStr "Internal server error")], 500).
Proof.
  assert (Hs : address_shaped lower_address) by (split; reflexivity).
  assert (Hc : EthUtils.to_checksum_address lower_address
               = inr checksum_of_address) by (vm_compute; reflexivity).
  split; [|split].
  - apply (expiry_date_error_answers far_future_node (fun _ => 0)
             lower_address checksum_of_address 0%nat 1%nat 253402300800
             (Py.ValueError "year 10000 is out of range" None) Hs Hc).
    + reflexivity.
    + vm_compute. reflexivity.
  - apply (expiry_date_error_answers (expiring_node 67767976233532800)
             (fun _ => 0) lower_address checksum_of_address 0%nat 1%nat
             67767976233532800
             (Py.ValueError "year -2147483648 is out of range" None) Hs Hc).
    + reflexivity.
    + vm_compute. reflexivity.
  - apply (expiry_date_error_answers (expiring_node (2 ^ 63))
             (fun _ => 0) lower_address checksum_of_address 0%nat 1%nat
             (2 ^ 63)
             (Py.OverflowError "timestamp out of range for platform time_t")
             Hs Hc).
    + reflexivity.
    + vm_compute. reflexivity.
Defined.

(** ** The statistics *)

Lemma from_wei_ether_ok (x : Z) (o : option Z) :
  EthUtils.from_wei_ether x = inr o ->
  0 <= x <= 2 ^ 256 - 1 /\ BlockchainService.json_of_eth o = eth_value x.
Proof.
  unfold EthUtils.from_wei_ether, eth_value.
  destruct (Z.eqb_spec x 0) as [->|Hne].
  - intros [= <-]. split; [|reflexivity].
    split; [reflexivity|]. apply Z.lt_le_pred. apply Z.pow_pos_nonneg; lia.
  - destruct (Z.ltb_spec x 0); [discriminate|].
    destruct (Z.ltb_spec (2 ^ 256 - 1) x); [discriminate|].
    intros [= <-]. cbn [orb] in *. split; [split; assumption | reflexivity].
Qed.

Lemma truediv_ok (n d : Z) (q : Z * Z) :
  Py.truediv n d = inr q -> q = (n, d).
Proof.
  unfold Py.truediv. destruct (d =? 0); [discriminate|].
  destruct (_ <=? _); [discriminate|]. now intros [= <-].
Qed.

Lemma from_wei_ether_in_range (x : Z) :
  0 <= x <= 2 ^ 256 - 1 ->
  EthUtils.from_wei_ether x = inr (if x =? 0 then None else Some x).
Proof.
  intros [H0 H1]. unfold EthUtils.from_wei_ether.
  destruct (x =? 0); [reflexivity|].
  destruct (Z.ltb_spec x 0); [lia|].
  destruct (Z.ltb_spec (2 ^ 256 - 1) x); [lia|]. reflexivity.
Qed.

Lemma truediv_days (n : Z) :
  Py.truediv n 86400 = inr (n, 86400)
  <-> Z.abs n < 86400 * (2 ^ 1024 - 2 ^ 970).
Proof.
  unfold Py.truediv. cbn [Z.eqb Z.abs].
  destruct (Z.leb_spec (86400 * (2 ^ 1024 - 2 ^ 970)) (Z.abs n)).
  - split; [discriminate | lia].
  - split; [intros _; assumption | reflexivity].
Qed.

(** X7: the reader's [get_contract_stats] returns exactly when the node
    answers its nine reads (the price, the duration, the revenue and the
    balance twice each, in a fixed order) with values that can be
    converted; the statistics are then made of what the node answered:
    each field in wei (or in seconds) holds the value of the first read
    and the field in ether (or in days) is computed from the value of the
    second read, which lies between 0 and 2^256 - 1. *)
Theorem stats_success_shape {W : Type} (node : Node W)
    (contract_address : string) (w : W) :
  (forall stats s',
     BlockchainService.get_contract_stats node contract_address (w, [])
     = (inr stats, s') ->
     exists p1 p2 d1 d2 n r1 r2 b1 b2 w',
       nine_reads node w p1 p2 d1 d2 n r1 r2 b1 b2 w'
       /\ convertible p2 d2 r2 b2
       /\ stats = stats_of_reads contract_address p1 p2 d1 d2 n r1 r2 b1 b2
       /\ s' = (w', stats_trace))
  /\ (forall p1 p2 d1 d2 n r1 r2 b1 b2 w',
        nine_reads node w p1 p2 d1 d2 n r1 r2 b1 b2 w' ->
        convertible p2 d2 r2 b2 ->
        BlockchainService.get_contract_stats node contract_address (w, [])
        = (inr (stats_of_reads contract_address p1 p2 d1 d2 n r1 r2 b1 b2),
           (w', stats_trace))).
Proof.
  split.
  - intros stats s'. open_stats.
    repeat
      (match goal with
       | |- context [SUBSCRIPTION_PRICE ?n ?x] =>
           destruct (SUBSCRIPTION_PRICE n x) as [[?e|?v] ?w] eqn:?
       | |- context [SUBSCRIPTION_DURATION ?n ?x] =>
           destruct (SUBSCRIPTION_DURATION n x) as [[?e|?v] ?w] eqn:?
       | |- context [totalSubscribers ?n ?x] =>
           destruct (totalSubscribers n x) as [[?e|?v] ?w] eqn:?
       | |- context [totalRevenue ?n ?x] =>
           destruct (totalRevenue n x) as [[?e|?v] ?w] eqn:?
       | |- context [getBalance ?n ?x] =>
           destruct (getBalance n x) as [[?e|?v] ?w] eqn:?
       | |- context [EthUtils.from_wei_ether ?x] =>
           destruct (EthUtils.from_wei_ether x) as [?e|?o] eqn:?
       | |- context [Py.truediv ?x ?d] =>
           destruct (Py.truediv x d) as [?e|?q] eqn:?
       end;
       cbn [fst snd app Eff.is_ok]);
      try discriminate.
    intros [= <- <-].
    repeat match goal with
           | H : EthUtils.from_wei_ether _ = inr _ |- _ =>
               apply from_wei_ether_ok in H; destruct H as [? H]; rewrite H;
               clear H
           | H : Py.truediv ?x _ = inr ?q |- _ =>
               pose proof (truediv_ok _ _ _ H); subst q;
               apply truediv_days in H
           end.
    cbn [fst snd].
    do 10 eexists. split.
    + unfold nine_reads. do 8 eexists.
      repeat (split; [eassumption|]). eassumption.
    + split; [|split; reflexivity].
      unfold convertible. repeat split; first [eassumption | lia].
  - intros p1 p2 d1 d2 n r1 r2 b1 b2 w'
      (w1 & w2 & w3 & w4 & w5 & w6 & w7 & w8
       & H1 & H2 & H3 & H4 & H5 & H6 & H7 & H8 & H9)
      (Cp & Cr & Cb & Cd).
    open_stats.
    rewrite H1. cbn [fst snd Eff.is_ok].
    rewrite H2. cbn [fst snd Eff.is_ok].
    rewrite (from_wei_ether_in_range p2 Cp). cbn [fst snd].
    rewrite H3. cbn [fst snd Eff.is_ok].
    rewrite H4. cbn [fst snd Eff.is_ok].
    rewrite (proj2 (truediv_days d2) Cd). cbn [fst snd].
    rewrite H5. cbn [fst snd Eff.is_ok].
    rewrite H6. cbn [fst snd Eff.is_ok].
    rewrite H7. cbn [fst snd Eff.is_ok].
    rewrite (from_wei_ether_in_range r2 Cr). cbn [fst snd].
    rewrite H8. cbn [fst snd Eff.is_ok].
    rewrite H9. cbn [fst snd Eff.is_ok].
    rewrite (from_wei_ether_in_range b2 Cb). cbn [fst snd].
    unfold stats_of_reads, stats_trace, eth_value,
      BlockchainService.json_of_eth.
    destruct (p2 =? 0), (r2 =? 0), (b2 =? 0); reflexivity.
Qed.

Lemma stats_success_shape_witness :
  BlockchainService.get_contract_stats drifting_node "0x" (0%nat, [])
  = (inr [ ("subscription_price_wei", JInt 1000);
           ("subscription_price_eth", JDecimalWei 1001);
           ("subscription_duration_seconds", JInt 2592002);
           ("subscription_duration_days", JFloatDiv 2592003 86400);
           ("total_subscribers", JInt 46);
           ("total_revenue_wei", JInt 5005);
           ("total_revenue_eth", JDecimalWei 5006);
           ("contract_balance_wei", JInt 7007);
           ("contract_balance_eth", JDecimalWei 7008);
           ("contract_address", JStr "0x") ],
     (9%nat, stats_trace)).
Proof.
  apply (proj2 (stats_success_shape drifting_node "0x" 0%nat)
           1000 1001 2592002 2592003 46 5005 5006 7007 7008 9%nat).
  - exists 1%nat, 2%nat, 3%nat, 4%nat, 5%nat, 6%nat, 7%nat, 8%nat.
    repeat split; reflexivity.
  - unfold convertible. repeat split; lia.
Defined.

(** ** More on format_duration *)

Lemma str_of_int_positive_head (n : Z) :
  0 < n ->
  exists c rest, Py.str_of_int n = String c rest /\ c <> "L"%char.
Proof.
  intros Hn. destruct n as [|p|p]; try lia.
  unfold Py.str_of_int. cbn [Z.to_int NilZero.string_of_int].
  pose proof (DecimalPos.Unsigned.to_uint_nonnil p) as Hnil.
  destruct (Pos.to_uint p); [contradiction | ..];
    cbn [NilZero.string_of_uint NilEmpty.string_of_uint];
    do 2 eexists; (split; [reflexivity | discriminate]).
Qed.

Lemma join_head (n : Z) (unit : string) (rest : list string) :
  0 < n ->
  exists c tail,
    Py.join ", " (App.unit_text n unit :: rest) = String c tail
    /\ c <> "L"%char.
Proof.
  intros Hn. destruct (str_of_int_positive_head n Hn) as (c & r & Hs & Hc).
  unfold Py.join, App.unit_text. rewrite Hs.
  destruct rest as [|y rest]; cbn [String.concat String.append];
    do 2 eexists; (split; [reflexivity | exact Hc]).
Qed.

(** X8: [format_duration] answers "Less than a minute" exactly for the
    non-zero inputs below 60 whose remainder modulo a day is below 60; for
    a positive number of seconds that is exactly below one minute, so a
    duration of a minute or more is never reported so. *)
Theorem format_duration_less_than_a_minute (seconds : Z) :
  (App.format_duration seconds = "Less than a minute"
   <-> seconds <> 0 /\ seconds < 60 /\ seconds mod 86400 < 60)
  /\ (0 < seconds ->
      (App.format_duration seconds = "Less than a minute" <-> seconds < 60)).
Proof.
  assert (Hiff : App.format_duration seconds = "Less than a minute"
                 <-> seconds <> 0 /\ seconds < 60 /\ seconds mod 86400 < 60).
  { destruct (Z.eq_dec seconds 0) as [->|Hne].
    { split; [discriminate | intros [H _]; contradiction]. }
    rewrite (format_duration_parts seconds Hne).
    pose proof (decompose_bounds seconds) as B.
    unfold Spec.decompose in *.
    assert (E : seconds mod 3600 = (seconds mod 86400) mod 3600).
    { symmetry. apply Z.mod_mod_divide. exists 24. reflexivity. }
    pose proof (Z.div_mod seconds 86400 ltac:(lia)) as H1.
    pose proof (Z.mod_pos_bound seconds 86400 ltac:(lia)) as B1.
    rewrite E in *.
    set (d := seconds / 86400) in *.
    set (r := seconds mod 86400) in *.
    pose proof (Z.div_mod r 3600 ltac:(lia)) as H2.
    pose proof (Z.mod_pos_bound r 3600 ltac:(lia)) as B2.
    set (h := r / 3600) in *.
    set (q := r mod 3600) in *.
    pose proof (Z.div_mod q 60 ltac:(lia)) as H3.
    pose proof (Z.mod_pos_bound q 60 ltac:(lia)) as B3.
    set (m := q / 60) in *.
    destruct (Z.ltb_spec 0 d) as [Hd|Hd].
    { cbn [app]. split; [|lia].
      intros H. destruct (join_head d "day"
        ((if 0 <? h then [App.unit_text h "hour"] else [])
         ++ (if 0 <? m then [App.unit_text m "minute"] else []))%list Hd)
        as (c & tl & Hj & Hc).
      rewrite Hj in H. injection H as H _. contradiction. }
    destruct (Z.ltb_spec 0 h) as [Hh|Hh].
    { cbn [app]. split; [|lia].
      intros H. destruct (join_head h "hour"
        (if 0 <? m then [App.unit_text m "minute"] else []) Hh)
        as (c & tl & Hj & Hc).
      rewrite Hj in H. injection H as H _. contradiction. }
    destruct (Z.ltb_spec 0 m) as [Hm|Hm].
    { cbn [app]. split; [|lia].
      intros H. destruct (join_head m "minute" [] Hm) as (c & tl & Hj & Hc).
      rewrite Hj in H. injection H as H _. contradiction. }
    cbn [app]. split; [intros _; lia | reflexivity]. }
  split; [exact Hiff|].
  intros Hpos. rewrite Hiff.
  split; [tauto|].
  intros Hlt. repeat split; [lia | assumption |].
  rewrite Z.mod_small; lia.
Qed.

Lemma format_duration_less_than_a_minute_witness :
  0 < 59 /\ (App.format_duration 59 = "Less than a minute" <-> 59 < 60).
Proof.
  split; [lia|].
  apply (proj2 (format_duration_less_than_a_minute 59)). lia.
Defined.

(** X9: the seconds within a minute do not show: an input that is not
    between 1 and 59 has the text of the last whole minute before it. *)
Theorem format_duration_ignores_seconds (seconds : Z) :
  seconds <= 0 \/ 60 <= seconds ->
  App.format_duration seconds = App.format_duration (seconds - seconds mod 60).
Proof.
  intros Hr.
  destruct (Z.eq_dec seconds 0) as [->|Hne]; [reflexivity|].
  pose proof (Z.div_mod seconds 60 ltac:(lia)) as H0.
  pose proof (Z.mod_pos_bound seconds 60 ltac:(lia)) as B0.
  assert (Hne' : seconds - seconds mod 60 <> 0) by lia.
  rewrite (format_duration_parts seconds Hne).
  rewrite (format_duration_parts _ Hne').
  unfold Spec.decompose.
  set (t := seconds - seconds mod 60).
  assert (Ed : t / 86400 = seconds / 86400).
  { subst t.
    pose proof (Z.div_mod seconds 86400 ltac:(lia)).
    pose proof (Z.mod_pos_bound seconds 86400 ltac:(lia)).
    pose proof (Z.div_mod (seconds - seconds mod 60) 86400 ltac:(lia)).
    pose proof (Z.mod_pos_bound (seconds - seconds mod 60) 86400 ltac:(lia)).
    pose proof (Z.div_mod (seconds mod 86400) 60 ltac:(lia)).
    pose proof (Z.mod_pos_bound (seconds mod 86400) 60 ltac:(lia)).
    lia. }
  assert (Eh : t mod 86400 / 3600 = seconds mod 86400 / 3600).
  { subst t. rewrite !Z.mod_eq by lia.
    Z.div_mod_to_equations. lia. }
  assert (Em : t mod 3600 / 60 = seconds mod 3600 / 60).
  { subst t. rewrite !Z.mod_eq by lia.
    Z.div_mod_to_equations. lia. }
  now rewrite Ed, Eh, Em.
Qed.

Lemma format_duration_ignores_seconds_witness :
  App.format_duration 3719 = App.format_duration 3660.
Proof.
  apply (format_duration_ignores_seconds 3719). right. lia.
Defined.

(** ** The configuration and the start *)

(** What [Config.validate] decides. *)
Lemma config_validate_run {W : Type} (c : Config.t)
    (s : Run.state (W := W) (E := boot_event)) :
  (config_ok c
   /\ Config.validate c s = (inr tt, AppStartup.say Line_config_validated s))
  \/ (~ config_ok c
      /\ exists msg, In msg config_messages
           /\ Config.validate c s = (inl (Py.ValueError msg None), s)).
Proof.
  unfold config_ok, config_messages, Config.validate, Config.not_.
  destruct c as [url address env debug]. cbn [Config.SEPOLIA_RPC_URL
    Config.CONTRACT_ADDRESS].
  destruct url as [url|].
  2:{ right. split.
      - intros (u & a & H & _). discriminate H.
      - eexists. split; [|reflexivity]. cbn; tauto. }
  destruct (String.eqb_spec url "") as [->|Hu].
  { right. split.
    - intros (u & a & [= <-] & Hne & _). contradiction.
    - eexists. split; [|reflexivity]. cbn; tauto. }
  destruct address as [address|].
  2:{ right. split.
      - intros (u & a & _ & _ & H & _). discriminate H.
      - eexists. split; [|reflexivity]. cbn; tauto. }
  destruct (String.eqb_spec address "") as [->|Ha].
  { right. split.
    - intros (u & a & _ & _ & [= <-] & Hp). cbv in Hp. discriminate Hp.
    - eexists. split; [|reflexivity]. cbn; tauto. }
  unfold Run.bind, Run.lift, Config.startswith_value.
  destruct (Py.startswith address "0x") eqn:Hp; cbn [negb].
  - left. split; [|reflexivity].
    exists url, address. repeat split; assumption.
  - right. split.
    + intros (u & a & _ & _ & [= <-] & Hp'). congruence.
    + eexists. split; [|reflexivity]. cbn; tauto.
Qed.

(** X10: [Config.validate] lets a configuration through exactly when the
    endpoint is set and not empty and the contract address is set and
    starts with 0x (nothing more is asked of the address); otherwise it
    raises a [ValueError] with one of its three messages and prints
    nothing. *)
Theorem config_validate_decides {W : Type} (c : Config.t)
    (s : Run.state (W := W) (E := boot_event)) :
  (config_ok c
   /\ Config.validate c s = (inr tt, AppStartup.say Line_config_validated s))
  \/ (~ config_ok c
      /\ exists msg, In msg config_messages
           /\ Config.validate c s = (inl (Py.ValueError msg None), s)).
Proof. exact (config_validate_run c s). Qed.

Section Start.
Context {W : Type} (host : Host W) (config : Config.t).

Ltac open_startup :=
  unfold AppStartup.startup, BlockchainInit.blockchain_service,
    BlockchainInit.__init__, BlockchainInit._load_abi, Run.try_except,
    Run.bind, Run.effect, Run.attempt, Run.emit, Run.lift, Run.ret, Run.raise;
  cbn [fst snd].

Ltac decide_config :=
  match goal with
  | |- context [Config.validate ?c ?s] =>
      destruct (config_validate_run c s)
        as [[?Hok ?Hv]|[?Hno (?msg & ?Hin & ?Hv)]];
      rewrite Hv; cbn [fst snd Py.is_ValueError Py.ValueError]
  end.

(** The import of app.py ends with the application ready only after every
    step of the start has succeeded, and then the trace is fixed;
    otherwise the process exits with code 1. *)
Lemma startup_run (w : W) :
  let r := AppStartup.startup host config (w, []) in
  match fst r with
  | AppStartup.Ready sv =>
      config_ok config
      /\ exists address w1 id w2 w3,
           Config.CONTRACT_ADDRESS config = Some address
           /\ is_connected host (Config.SEPOLIA_RPC_URL config) w = (true, w1)
           /\ chain_id host w1 = (inr id, w2)
           /\ EthUtils.to_checksum_address address = inr (service_address sv)
           /\ load_json_file host "contract_abi.json" w2
              = (inr (service_abi sv), w3)
           /\ make_contract host (service_address sv) (service_abi sv)
              = inr (service_contract sv)
           /\ snd r
              = (w3,
                 [ Connect (Config.SEPOLIA_RPC_URL config);
                   ReadChainId;
                   Say (Line_connected id);
                   OpenFile "contract_abi.json";
                   Say (Line_contract_loaded (service_address sv));
                   Say Line_config_validated;
                   Say Line_app_initialized ])
  | AppStartup.Exited code => code = 1
  | AppStartup.Uncaught _ => False
  end.
Proof.
  cbv zeta. open_startup.
  destruct (is_connected host (Config.SEPOLIA_RPC_URL config) w)
    as [[|] w1] eqn:Hconn; cbn [fst snd negb].
  2:{ decide_config; reflexivity. }
  destruct (chain_id host w1) as [[e|id] w2] eqn:Hid; cbn [fst snd].
  { decide_config; reflexivity. }
  destruct (Config.CONTRACT_ADDRESS config) as [address|] eqn:Haddr;
    cbn [BlockchainInit.to_checksum_address_value].
  2:{ decide_config; reflexivity. }
  destruct (EthUtils.to_checksum_address address) as [e|c] eqn:Hc.
  { decide_config; reflexivity. }
  destruct (load_json_file host "contract_abi.json" w2) as [[e|abi] w3] eqn:Hf;
    cbn [fst snd].
  { destruct (BlockchainInit.is_FileNotFoundError e);
      cbn [fst snd]; decide_config; reflexivity. }
  destruct (make_contract host c abi) as [e|n] eqn:Hmk.
  { decide_config; reflexivity. }
  decide_config; [|reflexivity].
  cbn [fst snd service_address service_abi service_contract app
       AppStartup.say].
  split; [assumption|].
  exists address, w1, id, w2, w3. repeat split; assumption.
Qed.

(** X12: when the liveness test of the node fails, the start ends with
    exit code 1 without another effect on the outside world: the chain id
    is not read and the ABI file is not opened; the test itself is made
    whatever the configuration is, before it is validated. *)
Theorem startup_fails_fast_when_disconnected (w : W) :
  fst (is_connected host (Config.SEPOLIA_RPC_URL config) w) = false ->
  let r := AppStartup.startup host config (w, []) in
  fst r = AppStartup.Exited 1
  /\ fst (snd r) = snd (is_connected host (Config.SEPOLIA_RPC_URL config) w)
  /\ forall ev, In ev (snd (snd r)) ->
       ev = Connect (Config.SEPOLIA_RPC_URL config) \/ is_say ev = true.
Proof.
  intros Hd. cbv zeta. open_startup.
  destruct (is_connected host (Config.SEPOLIA_RPC_URL config) w)
    as [b w1]. cbn [fst snd] in *. subst b. cbn [negb].
  decide_config; cbn [fst snd app AppStartup.say];
    (split; [reflexivity|]); (split; [reflexivity|]);
    intros ev Hev; cbn [In] in Hev;
    repeat destruct Hev as [<-|Hev]; try contradiction;
    first [left; reflexivity | right; reflexivity].
Qed.

End Start.

(** X11: the import of app.py never dies of an uncaught exception and
    never exits with a code other than 1; it leaves the application ready
    only when the configuration passed [Config.validate], the node
    answered the liveness test and the read of the chain id, the contract
    address had a checksum form (which becomes the address of the
    service), the ABI file was read and the contract object was built;
    the trace of such a start is fixed. *)
Theorem startup_ready_only_after_every_step {W : Type} (host : Host W)
    (config : Config.t) (w : W) :
  let r := AppStartup.startup host config (w, []) in
  match fst r with
  | AppStartup.Ready sv =>
      config_ok config
      /\ exists address w1 id w2 w3,
           Config.CONTRACT_ADDRESS config = Some address
           /\ is_connected host (Config.SEPOLIA_RPC_URL config) w = (true, w1)
           /\ chain_id host w1 = (inr id, w2)
           /\ EthUtils.to_checksum_address address = inr (service_address sv)
           /\ load_json_file host "contract_abi.json" w2
              = (inr (service_abi sv), w3)
           /\ make_contract host (service_address sv) (service_abi sv)
              = inr (service_contract sv)
           /\ snd r
              = (w3,
                 [ Connect (Config.SEPOLIA_RPC_URL config);
                   ReadChainId;
                   Say (Line_connected id);
                   OpenFile "contract_abi.json";
                   Say (Line_contract_loaded (service_address sv));
                   Say Line_config_validated;
                   Say Line_app_initialized ])
  | AppStartup.Exited code => code = 1
  | AppStartup.Uncaught _ => False
  end.
Proof. exact (startup_run host config w). Qed.

Lemma startup_fails_fast_when_disconnected_witness :
  fst (AppStartup.startup unreachable_host sample_config (0%nat, []))
  = AppStartup.Exited 1.
Proof.
  apply (startup_fails_fast_when_disconnected unreachable_host sample_config
           0%nat).
  reflexivity.
Defined.

(** X13: a contract address without a checksum form is fatal although
    [Config.validate] may accept it, and so is an ABI file that cannot be
    read: in both cases the start ends with exit code 1. *)
Theorem startup_needs_address_and_abi {W : Type} (host : Host W)
    (config : Config.t) (w : W) :
  (forall address, Config.CONTRACT_ADDRESS config = Some address ->
     exists e, EthUtils.to_checksum_address address = inl e)
  \/ (forall w', exists e,
        fst (load_json_file host "contract_abi.json" w') = inl e) ->
  fst (AppStartup.startup host config (w, [])) = AppStartup.Exited 1.
Proof.
  intros H. pose proof (startup_run host config w) as R. cbv zeta in R.
  destruct (fst (AppStartup.startup host config (w, []))) as [code|e|sv].
  - now subst code.
  - contradiction.
  - exfalso.
    destruct R as (_ & address & w1 & id & w2 & w3 & Ha & _ & _ & Hc & Hf & _).
    destruct H as [H|H].
    + destruct (H address Ha) as [e He]. congruence.
    + destruct (H w2) as [e He]. rewrite Hf in He. discriminate He.
Qed.

Lemma startup_needs_address_and_abi_witness :
  let config := Config.mk (Some "https://rpc.sepolia.org") (Some "0x")
                  "development" true in
  (exists s' : Run.state (W := nat) (E := boot_event),
     Config.validate config (0%nat, []) = (inr tt, s'))
  /\ fst (AppStartup.startup sample_host config (0%nat, []))
     = AppStartup.Exited 1.
Proof.
  cbv zeta. split; [eexists; reflexivity|].
  apply (startup_needs_address_and_abi sample_host
           (Config.mk (Some "https://rpc.sepolia.org") (Some "0x")
              "development" true) 0%nat).
  left. intros address [= <-]. eexists. vm_compute. reflexivity.
Defined.

(** X14: the address of a service that has started is canonical: 42
    characters with the 0x prefix, accepted by the syntactic check of the
    gateway, and its own checksum form; GET /health reports it with
    status 200 and touches neither the world nor the trace. *)
Theorem started_service_address_is_canonical {W : Type} (host : Host W)
    (config : Config.t) (w : W) (sv : Service W)
    (s : Eff.state (W := W)) :
  fst (AppStartup.startup host config (w, [])) = AppStartup.Ready sv ->
  address_shaped (service_address sv)
  /\ App.validate_address (service_address sv) = (true, None)
  /\ EthUtils.to_checksum_address (service_address sv)
     = inr (service_address sv)
  /\ exists body,
       App.serve (App.health_check (service_address sv)) s = ((body, 200), s)
       /\ dict_get body "contract_address"
          = Some (JStr (service_address sv)).
Proof.
  intros H. pose proof (startup_run host config w) as R. cbv zeta in R.
  rewrite H in R.
  destruct R as (_ & address & w1 & id & w2 & w3 & _ & _ & _ & Hc & _).
  destruct (to_checksum_address_canonical _ _ Hc) as [Hs Hfix].
  split; [assumption|].
  split; [exact (validate_address_shaped _ Hs)|].
  split; [assumption|].
  eexists. split; reflexivity.
Qed.

Lemma started_service_address_is_canonical_witness :
  exists sv,
    fst (AppStartup.startup sample_host sample_config (0%nat, []))
    = AppStartup.Ready sv
    /\ service_address sv = checksum_of_address
    /\ address_shaped (service_address sv).
Proof.
  eexists. split; [vm_compute; reflexivity|].
  split; [reflexivity|].
  apply (started_service_address_is_canonical sample_host sample_config 0%nat
           (mk_Service checksum_of_address (JList []) sample_node)
           (0%nat, [])).
  vm_compute. reflexivity.
Defined.

(** ** The first failure ends a request *)

Section FirstFailure.
Context {W : Type} (node : Node W) (utcoffset : Z -> Z)
  (contract_address : string).

Ltac last_call :=
  cbn [events_of fst snd app filter is_remote removelast In];
  intros ev Hev; repeat destruct Hev as [<-|Hev];
  first [reflexivity | contradiction].

Lemma status_stops_at_failure (a : string) (w : W) :
  forall ev,
    In ev (removelast
             (filter is_remote
                (events_of (App.serve
                              (App.get_subscription_status node utcoffset a)
                              (w, []))))) ->
    failed_remote ev = false.
Proof.
  destruct (validate_address_cases a) as [Hv|[msg Hv]].
  2:{ rewrite (proj1 (routes_reject node utcoffset a msg (w, []) Hv)).
      last_call. }
  destruct (EthUtils.to_checksum_address a) as [e|c] eqn:E.
  { rewrite (proj1 (routes_invalid_address node utcoffset a e (w, []) Hv E)).
    last_call. }
  open_routes; rewrite Hv; run; repeat route_step @wallet_read_checksum;
    last_call.
Qed.

Lemma stats_stops_at_failure (w : W) :
  forall ev,
    In ev (removelast
             (filter is_remote
                (snd (snd (BlockchainService.get_contract_stats node
                             contract_address (w, []))))) ) ->
    failed_remote ev = false.
Proof.
  open_stats. repeat stats_step; last_call.
Qed.

End FirstFailure.

(** X15: the first failure ends the work of a request: in GET /status and
    in the reader's [get_contract_stats], every remote call but the last
    one made has succeeded, so no remote call is made after a failed
    one. *)
Theorem no_call_after_a_failed_call {W : Type} (node : Node W)
    (utcoffset : Z -> Z) (contract_address a : string) (w : W) :
  (forall ev,
     In ev (removelast
              (filter is_remote
                 (events_of (App.serve
                               (App.get_subscription_status node utcoffset a)
                               (w, []))))) ->
     failed_remote ev = false)
  /\ (forall ev,
        In ev (removelast
                 (filter is_remote
                    (snd (snd (BlockchainService.get_contract_stats node
                                 contract_address (w, [])))))) ->
        failed_remote ev = false).
Proof.
  split.
  - exact (status_stops_at_failure node utcoffset a w).
  - exact (stats_stops_at_failure node contract_address w).
Qed.

Lemma no_call_after_a_failed_call_witness :
  filter is_remote
    (events_of (App.serve
                  (App.get_subscription_status offline_node (fun _ => 0)
                     lower_address)
                  (0%nat, [])))
  = [RemoteCall "isActive" (Some checksum_of_address) false]
  /\ failed_remote (RemoteCall "SUBSCRIPTION_PRICE" None true) = false.
Proof.
  split; [vm_compute; reflexivity|].
  apply (proj2 (no_call_after_a_failed_call sample_node (fun _ => 0) "0x"
                  lower_address 0%nat)).
  vm_compute. tauto.
Defined.

(** ** The example of an event query *)

(** X16: [get_subscription_events] normalizes the address before it
    touches the node: for a text without a checksum form it raises the
    error of the normalization itself (it is not reworded as in the read
    operations) and leaves world and trace as they were; when it returns,
    it has created the filter of Subscribed and then the filter of
    Cancelled, both from the given block and for the checksum form, before
    reading the entries of either. *)
Theorem subscription_events_outcomes {W F : Type} (log : EventLog W F)
    (a : string) (from_block : Z) (w : W) :
  let r := BlockchainEvents.get_subscription_events log a from_block (w, []) in
  match fst r with
  | inr d =>
      exists c subscribed cancelled,
        EthUtils.to_checksum_address a = inr c
        /\ d = [ ("subscribed", JList subscribed);
                 ("cancelled", JList cancelled) ]
        /\ snd (snd r)
           = [ CreateFilter "Subscribed" from_block c;
               CreateFilter "Cancelled" from_block c;
               GetAllEntries "Subscribed";
               GetAllEntries "Cancelled" ]
  | inl e =>
      (EthUtils.to_checksum_address a = inl e /\ snd r = (w, []))
      \/ (exists c rest,
            EthUtils.to_checksum_address a = inr c
            /\ snd (snd r) = CreateFilter "Subscribed" from_block c :: rest)
  end.
Proof.
  cbv zeta.
  unfold BlockchainEvents.get_subscription_events, Run.bind, Run.lift,
    Run.attempt, Run.ret.
  cbn [fst snd app].
  destruct (EthUtils.to_checksum_address a) as [e|c]; cbn [fst snd].
  { left. split; reflexivity. }
  destruct (create_filter log "Subscribed" from_block c w) as [[e|f1] w1];
    cbn [fst snd].
  { right. do 2 eexists. split; reflexivity. }
  destruct (create_filter log "Cancelled" from_block c w1) as [[e|f2] w2];
    cbn [fst snd].
  { right. do 2 eexists. split; reflexivity. }
  destruct (get_all_entries log f1 w2) as [[e|l1] w3]; cbn [fst snd].
  { right. do 2 eexists. split; reflexivity. }
  destruct (get_all_entries log f2 w3) as [[e|l2] w4]; cbn [fst snd].
  { right. do 2 eexists. split; reflexivity. }
  do 3 eexists. repeat split; reflexivity.
Qed.

(** ** The class of a failure decides the status *)


